(** * SignDocument: field navigation, validation, flattening and hand-off

    A shallow embedding of [src/pages/SignDocument.tsx].

    - JavaScript strings are [string]; every character stands for one code
      unit below 256, which is enough to tell white space from the rest.
    - The [FormValues] object (an index signature [{[key: string]: string}])
      is a finite map from labels to strings; a key that is absent reads as
      [undefined], here [None].
    - JavaScript numbers used as coordinates are finite doubles, which are
      rationals ([Qc]). The component subtracts them and scales an image
      size by one half; both operations round, so they are operations of
      the [Library] ([jsSub], [jsMul]) and nothing is assumed of them
      unless a property says so.
    - A call of the PDF library can throw: parsing, embedding, saving, and
      each [drawText] and [drawImage], whose error, if any, is given by
      [drawError]. What is thrown inside a [try] is caught there, what is
      thrown outside ends the loop.
    - React state is a record, every handler is a function from the state
      before to the state after. A handler that talks to the data store
      works on a [World]: the persisted tables, the React state and the
      list of requests sent so far. The data store is a set of section
      variables and the libraries (base64, PNG and PDF) are a [Library]
      record, so every property holds whatever they answer.
    - Page numbers are integers. Labels that name a property inherited from
      [Object.prototype] are not considered.
    - A handler runs to its end before the next event is taken. *)

From Stdlib Require Import ZArith QArith Qcanon Ascii String List Lia.
From stdpp Require Import base option list strings gmap fin_maps numbers.

Local Open Scope Z_scope.
Local Open Scope string_scope.
Local Open Scope list_scope.

(** ** JavaScript string primitives used by the component *)

Module Js.

(** White space in the sense of [String.prototype.trim], restricted to the
    code units below 256: TAB, LF, VT, FF, CR, SPACE and NBSP. *)
Definition isWhiteSpace (c : ascii) : bool :=
  match N_of_ascii c with
  | 9%N | 10%N | 11%N | 12%N | 13%N | 32%N | 160%N => true
  | _ => false
  end.

Fixpoint trimStart (s : string) : string :=
  match s with
  | EmptyString => EmptyString
  | String c s' => if isWhiteSpace c then trimStart s' else s
  end.

Definition trimEnd (s : string) : string :=
  String.rev (trimStart (String.rev s)).

Definition trim (s : string) : string := trimEnd (trimStart s).

(** Truthiness of a value of type [string | undefined]: [undefined] and
    the empty string are falsy, every other string is truthy. *)
Definition truthy (v : option string) : bool :=
  match v with
  | None => false
  | Some EmptyString => false
  | Some (String _ _) => true
  end.

(** [v || ''] *)
Definition orEmpty (v : option string) : string :=
  if truthy v then default "" v else "".

(** [labels.join(sep)] *)
Fixpoint join (sep : string) (l : list string) : string :=
  match l with
  | [] => ""
  | [s] => s
  | s :: rest => s +:+ sep +:+ join sep rest
  end.

(** [s.split(sep)] for a one-character separator: the pieces between the
    separators, in order; a string without separator is its only piece. *)
Fixpoint split (sep : ascii) (s : string) : list string :=
  match s with
  | EmptyString => [EmptyString]
  | String c s' =>
      if Ascii.eqb c sep then EmptyString :: split sep s'
      else match split sep s' with
           | [] => [String c EmptyString]
           | piece :: pieces => String c piece :: pieces
           end
  end.

End Js.

(** ** Data model (the interfaces at the top of the file) *)

Inductive FieldType := signature | text | date.

Global Instance FieldType_eq_dec : EqDecision FieldType.
Proof. solve_decision. Defined.

Record Position := {
  pos_x : Qc;
  pos_y : Qc;
  pageNumber : Z
}.

Record FormField := {
  field_type : FieldType;
  position : Position;
  label : string;
  required : bool;
  field_id : string
}.

Record Template := {
  tpl_id : string;
  tpl_name : string;
  fields : list FormField;
  file_path : string
}.

Abbreviation FormValues := (gmap string string).

Record SignedDocument := {
  doc_id : string;
  template_id : string;
  form_values : FormValues;
  created_at : string;
  doc_template : Template
}.

(** ** Component state (the [useState] cells of [SignDocument]) *)

(** What the router hands to the component: [useParams] and the [mode]
    query parameter. *)
Record Route := {
  templateId : option string;
  isSigningMode : bool
}.

Record State := {
  template : option Template;
  pdfUrl : option string;
  formValues : FormValues;
  showSignaturePad : bool;
  activeField : option string;
  isSaving : bool;
  error : option string;
  success : bool;
  currentPage : Z;
  showQRCode : bool;
  currentFieldIndex : Z;
  signedDocument : option SignedDocument;
  isMobile : bool;
  mobileSignatureComplete : bool
}.

(** [window.innerWidth <= 768] decides [isMobile] at mount. *)
Definition initialState (innerWidth : Z) : State := {|
  template := None;
  pdfUrl := None;
  formValues := ∅;
  showSignaturePad := false;
  activeField := None;
  isSaving := false;
  error := None;
  success := false;
  currentPage := 1;
  showQRCode := false;
  currentFieldIndex := 0;
  signedDocument := None;
  isMobile := bool_decide (innerWidth ≤ 768)%Z;
  mobileSignatureComplete := false
|}.

(** The setters returned by [useState]. *)
Definition setTemplate (v : option Template) (s : State) : State :=
  {| template := v; pdfUrl := pdfUrl s; formValues := formValues s;
     showSignaturePad := showSignaturePad s; activeField := activeField s;
     isSaving := isSaving s; error := error s; success := success s;
     currentPage := currentPage s; showQRCode := showQRCode s;
     currentFieldIndex := currentFieldIndex s;
     signedDocument := signedDocument s; isMobile := isMobile s;
     mobileSignatureComplete := mobileSignatureComplete s |}.

Definition setPdfUrl (v : option string) (s : State) : State :=
  {| template := template s; pdfUrl := v; formValues := formValues s;
     showSignaturePad := showSignaturePad s; activeField := activeField s;
     isSaving := isSaving s; error := error s; success := success s;
     currentPage := currentPage s; showQRCode := showQRCode s;
     currentFieldIndex := currentFieldIndex s;
     signedDocument := signedDocument s; isMobile := isMobile s;
     mobileSignatureComplete := mobileSignatureComplete s |}.

(** [setFormValues(prev => f(prev))] *)
Definition setFormValues (f : FormValues → FormValues) (s : State) : State :=
  {| template := template s; pdfUrl := pdfUrl s;
     formValues := f (formValues s);
     showSignaturePad := showSignaturePad s; activeField := activeField s;
     isSaving := isSaving s; error := error s; success := success s;
     currentPage := currentPage s; showQRCode := showQRCode s;
     currentFieldIndex := currentFieldIndex s;
     signedDocument := signedDocument s; isMobile := isMobile s;
     mobileSignatureComplete := mobileSignatureComplete s |}.

Definition setShowSignaturePad (v : bool) (s : State) : State :=
  {| template := template s; pdfUrl := pdfUrl s; formValues := formValues s;
     showSignaturePad := v; activeField := activeField s;
     isSaving := isSaving s; error := error s; success := success s;
     currentPage := currentPage s; showQRCode := showQRCode s;
     currentFieldIndex := currentFieldIndex s;
     signedDocument := signedDocument s; isMobile := isMobile s;
     mobileSignatureComplete := mobileSignatureComplete s |}.

Definition setActiveField (v : option string) (s : State) : State :=
  {| template := template s; pdfUrl := pdfUrl s; formValues := formValues s;
     showSignaturePad := showSignaturePad s; activeField := v;
     isSaving := isSaving s; error := error s; success := success s;
     currentPage := currentPage s; showQRCode := showQRCode s;
     currentFieldIndex := currentFieldIndex s;
     signedDocument := signedDocument s; isMobile := isMobile s;
     mobileSignatureComplete := mobileSignatureComplete s |}.

Definition setIsSaving (v : bool) (s : State) : State :=
  {| template := template s; pdfUrl := pdfUrl s; formValues := formValues s;
     showSignaturePad := showSignaturePad s; activeField := activeField s;
     isSaving := v; error := error s; success := success s;
     currentPage := currentPage s; showQRCode := showQRCode s;
     currentFieldIndex := currentFieldIndex s;
     signedDocument := signedDocument s; isMobile := isMobile s;
     mobileSignatureComplete := mobileSignatureComplete s |}.

Definition setError (v : option string) (s : State) : State :=
  {| template := template s; pdfUrl := pdfUrl s; formValues := formValues s;
     showSignaturePad := showSignaturePad s; activeField := activeField s;
     isSaving := isSaving s; error := v; success := success s;
     currentPage := currentPage s; showQRCode := showQRCode s;
     currentFieldIndex := currentFieldIndex s;
     signedDocument := signedDocument s; isMobile := isMobile s;
     mobileSignatureComplete := mobileSignatureComplete s |}.

Definition setSuccess (v : bool) (s : State) : State :=
  {| template := template s; pdfUrl := pdfUrl s; formValues := formValues s;
     showSignaturePad := showSignaturePad s; activeField := activeField s;
     isSaving := isSaving s; error := error s; success := v;
     currentPage := currentPage s; showQRCode := showQRCode s;
     currentFieldIndex := currentFieldIndex s;
     signedDocument := signedDocument s; isMobile := isMobile s;
     mobileSignatureComplete := mobileSignatureComplete s |}.

Definition setCurrentPage (v : Z) (s : State) : State :=
  {| template := template s; pdfUrl := pdfUrl s; formValues := formValues s;
     showSignaturePad := showSignaturePad s; activeField := activeField s;
     isSaving := isSaving s; error := error s; success := success s;
     currentPage := v; showQRCode := showQRCode s;
     currentFieldIndex := currentFieldIndex s;
     signedDocument := signedDocument s; isMobile := isMobile s;
     mobileSignatureComplete := mobileSignatureComplete s |}.

Definition setShowQRCode (v : bool) (s : State) : State :=
  {| template := template s; pdfUrl := pdfUrl s; formValues := formValues s;
     showSignaturePad := showSignaturePad s; activeField := activeField s;
     isSaving := isSaving s; error := error s; success := success s;
     currentPage := currentPage s; showQRCode := v;
     currentFieldIndex := currentFieldIndex s;
     signedDocument := signedDocument s; isMobile := isMobile s;
     mobileSignatureComplete := mobileSignatureComplete s |}.

(** [setCurrentFieldIndex(prevIndex => f(prevIndex))] *)
Definition setCurrentFieldIndex (f : Z → Z) (s : State) : State :=
  {| template := template s; pdfUrl := pdfUrl s; formValues := formValues s;
     showSignaturePad := showSignaturePad s; activeField := activeField s;
     isSaving := isSaving s; error := error s; success := success s;
     currentPage := currentPage s; showQRCode := showQRCode s;
     currentFieldIndex := f (currentFieldIndex s);
     signedDocument := signedDocument s; isMobile := isMobile s;
     mobileSignatureComplete := mobileSignatureComplete s |}.

Definition setSignedDocument (v : option SignedDocument) (s : State) : State :=
  {| template := template s; pdfUrl := pdfUrl s; formValues := formValues s;
     showSignaturePad := showSignaturePad s; activeField := activeField s;
     isSaving := isSaving s; error := error s; success := success s;
     currentPage := currentPage s; showQRCode := showQRCode s;
     currentFieldIndex := currentFieldIndex s;
     signedDocument := v; isMobile := isMobile s;
     mobileSignatureComplete := mobileSignatureComplete s |}.

Definition setIsMobile (v : bool) (s : State) : State :=
  {| template := template s; pdfUrl := pdfUrl s; formValues := formValues s;
     showSignaturePad := showSignaturePad s; activeField := activeField s;
     isSaving := isSaving s; error := error s; success := success s;
     currentPage := currentPage s; showQRCode := showQRCode s;
     currentFieldIndex := currentFieldIndex s;
     signedDocument := signedDocument s; isMobile := v;
     mobileSignatureComplete := mobileSignatureComplete s |}.

Definition setMobileSignatureComplete (v : bool) (s : State) : State :=
  {| template := template s; pdfUrl := pdfUrl s; formValues := formValues s;
     showSignaturePad := showSignaturePad s; activeField := activeField s;
     isSaving := isSaving s; error := error s; success := success s;
     currentPage := currentPage s; showQRCode := showQRCode s;
     currentFieldIndex := currentFieldIndex s;
     signedDocument := signedDocument s; isMobile := isMobile s;
     mobileSignatureComplete := v |}.

(** ** Validation *)

(** The predicate handed to [template.fields.filter]:
    [field.required && (!value || value.trim() === '')]
    with [value = formValues[field.label]]. *)
Definition isMissing (V : FormValues) (field : FormField) : bool :=
  let value := V !! label field in
  required field &&
  (negb (Js.truthy value) ||
   bool_decide (Js.trim (default "" value) = "")).

Definition missingFields (T : Template) (V : FormValues) : list FormField :=
  List.filter (isMissing V) (fields T).

Definition missingLabels (T : Template) (V : FormValues) : list string :=
  List.map label (missingFields T V).

Definition missingMessage (T : Template) (V : FormValues) : string :=
  "Please complete all required fields: " +:+ Js.join ", " (missingLabels T V).

(** [validateForm]: the boolean it returns and the state after its
    [setError] call, if any. *)
Definition validateForm (s : State) : bool * State :=
  match template s with
  | None => (false, s)
  | Some T =>
      if bool_decide (0 < Z.of_nat (length (missingFields T (formValues s))))%Z
      then (false, setError (Some (missingMessage T (formValues s))) s)
      else (true, s)
  end.

(** ** Exceptions *)

(** A computation either returns or throws; [Error] is the message of the
    thrown value. *)
Definition Error := string.

Inductive Result (A : Type) : Type :=
  | Ok (a : A)
  | Throw (e : Error).
Arguments Ok {A} a.
Arguments Throw {A} e.

Global Instance Result_ret : MRet Result := fun A a => Ok a.
Global Instance Result_bind : MBind Result := fun A B k m =>
  match m with
  | Ok a => k a
  | Throw e => Throw e
  end.

(** [try { body } catch (err) { handler(err) }] *)
Definition tryCatch {A} (body : Result A) (handler : Error → Result A) : Result A :=
  match body with
  | Ok a => Ok a
  | Throw e => handler e
  end.

(** [for (const a of l) { s = body(s, a) }], stopping at the first throw. *)
Fixpoint forOf {A S} (l : list A) (body : S → A → Result S) (s : S) : Result S :=
  match l with
  | [] => Ok s
  | a :: rest => s' ← body s a; forOf rest body s'
  end.

(** [array[k]] for a number [k] that is an integer: [undefined] outside
    [0 .. length - 1]. *)
Definition arrayGet {A} (l : list A) (k : Z) : option A :=
  if bool_decide (0 ≤ k)%Z then l !! Z.to_nat k else None.

(** ** The part of pdf-lib the component drives *)

Module Pdf.

(** An embedded PNG with its native size in pixels. *)
Record PDFImage := {
  img_width : Z;
  img_height : Z
}.

Record Dims := {
  dim_width : Qc;
  dim_height : Qc
}.

(** [image.scale(factor)]: both sides times the factor, with the
    multiplication [mul] of JavaScript numbers. *)
Definition scale (mul : Qc → Qc → Qc) (image : PDFImage) (factor : Qc) : Dims :=
  {| dim_width := mul (Q2Qc (inject_Z (img_width image))) factor;
     dim_height := mul (Q2Qc (inject_Z (img_height image))) factor |}.

Inductive StandardFonts := Helvetica.

Record Color := rgb { red : Qc; green : Qc; blue : Qc }.

(** One call of [page.drawImage] or [page.drawText], with its options. *)
Inductive DrawOp :=
  | DrawImage (image : PDFImage) (x y width height : Qc)
  | DrawText (text : string) (x y : Qc) (size : Z)
             (font : StandardFonts) (color : Color).

(** A page: its height, and the calls that have drawn on it, oldest
    first. *)
Record PDFPage := {
  getHeight : Qc;
  content : list DrawOp
}.

Record PDFDocument := {
  getPages : list PDFPage;
  embedded : list PDFImage
}.

(** The effect of a draw call that does not throw. *)
Definition draw (op : DrawOp) (page : PDFPage) : PDFPage :=
  {| getHeight := getHeight page; content := content page ++ [op] |}.

(** The page object at index [i] has been drawn on. *)
Definition updatePage (i : nat) (page : PDFPage) (d : PDFDocument) : PDFDocument :=
  {| getPages := <[i := page]> (getPages d); embedded := embedded d |}.

(** A successful [embedPng] registers the image with the document. *)
Definition registerImage (image : PDFImage) (d : PDFDocument) : PDFDocument :=
  {| getPages := getPages d; embedded := embedded d ++ [image] |}.

Definition opX (op : DrawOp) : Qc :=
  match op with
  | DrawImage _ x _ _ _ => x
  | DrawText _ x _ _ _ _ => x
  end.

Definition opY (op : DrawOp) : Qc :=
  match op with
  | DrawImage _ _ y _ _ => y
  | DrawText _ _ y _ _ _ => y
  end.

End Pdf.
Import Pdf.

(** ** Flattening ([downloadSignedPdf]) *)

Definition half : Qc := Q2Qc (1 # 2).

Definition black : Color := rgb (Q2Qc 0) (Q2Qc 0) (Q2Qc 0).

(** [c.charCodeAt(0)] over a binary string *)
Definition charCodes (s : string) : list N :=
  List.map N_of_ascii (list_ascii_of_string s).

(** A line written with [console.error]. *)
Record ConsoleLine := {
  line_text : string;
  line_error : Error
}.

(** The document being drawn on and the console. *)
Definition Flat : Type := PDFDocument * list ConsoleLine.

(** Answer of [supabase.storage.from('templates').download(path)]. *)
Record DownloadResponse := {
  dl_data : option (list N);
  dl_error : option Error
}.

(** What the component takes from the platform and from pdf-lib without
    looking inside. Every property below holds for any such library.
    - [atob], [embedPng], [PDFDocument_load], [embedFont] (of the
      Helvetica font) and [save] return or throw.
    - [jsSub] and [jsMul] are [-] and [*] on JavaScript numbers. The
      numbers are doubles, which are rationals; the two operations round
      and are not taken to be the exact ones.
    - [drawError] is the error that [page.drawText] or [page.drawImage]
      throws for a call with these arguments, if it throws ([drawText]
      does for a text that the Helvetica font cannot encode). *)
Record Library := {
  atob : string → Result string;
  embedPng : list N → Result PDFImage;
  PDFDocument_load : list N → Result PDFDocument;
  embedFont : PDFDocument → Result StandardFonts;
  save : PDFDocument → Result (list N);
  jsSub : Qc → Qc → Qc;
  jsMul : Qc → Qc → Qc;
  drawError : DrawOp → option Error
}.

Section Flatten.

Variable lib : Library.

(** Lines 71 to 73: the payload after the first comma, decoded. An
    [undefined] piece reaches [atob] as the string ["undefined"]. *)
Definition decodeSignature (value : string) : Result PDFImage :=
  let base64Data := Js.split "," value !! 1%nat in
  binary ← atob lib (default "undefined" base64Data);
  embedPng lib (charCodes binary).

(** The arguments of [page.drawImage], lines 74 to 81, on a page of height
    [H]. *)
Definition imageDraw (H : Qc) (field : FormField) (signatureImage : PDFImage)
  : DrawOp :=
  let signatureDims := scale (jsMul lib) signatureImage half in
  DrawImage signatureImage
    (pos_x (position field))
    (jsSub lib (jsSub lib H (pos_y (position field)))
       (dim_height signatureDims))
    (dim_width signatureDims)
    (dim_height signatureDims).

(** The arguments of [page.drawText], lines 86 to 92. *)
Definition textDraw (H : Qc) (field : FormField) (value : string) : DrawOp :=
  DrawText value
    (pos_x (position field))
    (jsSub lib H (pos_y (position field)))
    12 Helvetica black.

(** A draw call on the page at index [i]: it throws, or the page has the
    call added. *)
Definition drawOn (i : nat) (page : PDFPage) (op : DrawOp) (pdfDoc : PDFDocument)
  : Result PDFDocument :=
  match drawError lib op with
  | Some err => Throw err
  | None => Ok (updatePage i (draw op page) pdfDoc)
  end.

(** [console.error('Error embedding signature:', err)] *)
Definition embeddingError (err : Error) : ConsoleLine :=
  {| line_text := "Error embedding signature:"; line_error := err |}.

(** The body of the loop over [doc.template.fields], lines 64 to 93. In the
    signature branch everything from the decoding to [drawImage] is inside
    the [try]: a throw there becomes a console line, and what was done
    before it (the image registered by [embedPng]) stays done. The
    [drawText] of the other branch is outside any [try] of the loop: its
    throw ends the loop. *)
Definition overlayField (values : FormValues) (st : Flat) (field : FormField)
  : Result Flat :=
  let '(pdfDoc, console) := st in
  let k := (pageNumber (position field) - 1)%Z in
  match arrayGet (getPages pdfDoc) k with
  | None => Ok st
  | Some page =>
      let value := Js.orEmpty (values !! label field) in
      if bool_decide (field_type field = signature) && Js.truthy (Some value)
      then
        match decodeSignature value with
        | Throw err => Ok (pdfDoc, console ++ [embeddingError err])
        | Ok signatureImage =>
            let withImage := registerImage signatureImage pdfDoc in
            match drawOn (Z.to_nat k) page
                    (imageDraw (getHeight page) field signatureImage)
                    withImage with
            | Throw err => Ok (withImage, console ++ [embeddingError err])
            | Ok drawn => Ok (drawn, console)
            end
        end
      else
        drawn ← drawOn (Z.to_nat k) page
                  (textDraw (getHeight page) field value) pdfDoc;
        Ok (drawn, console)
  end.

Definition overlayFields (values : FormValues) (l : list FormField) (st : Flat)
  : Result Flat :=
  forOf l (overlayField values) st.

(** Lines 63 to 96: the loop, then [pdfDoc.save()]. *)
Definition flattenLoaded (pdfDoc : PDFDocument) (doc : SignedDocument)
  : Result (list N * list ConsoleLine) :=
  st ← overlayFields (form_values doc) (fields (doc_template doc)) (pdfDoc, []);
  modifiedPdfBytes ← save lib st.1;
  Ok (modifiedPdfBytes, st.2).

(** Lines 48 to 55: fetch and parse the original document. *)
Definition loadSource (response : DownloadResponse) : Result PDFDocument :=
  match dl_error response with
  | Some downloadError => Throw downloadError
  | None =>
      match dl_data response with
      | None => Throw "Could not download the file"
      | Some pdfBytes => PDFDocument_load lib pdfBytes
      end
  end.

(** [downloadSignedPdf] up to the bytes handed to the browser: the
    document is loaded, the font embedded (line 58), the fields drawn and
    the document saved; the outer [catch] writes a console line and throws
    the same error again. *)
Definition downloadSignedPdf (response : DownloadResponse) (doc : SignedDocument)
  : Result (list N * list ConsoleLine) :=
  tryCatch
    (pdfDoc ← loadSource response;
     font ← embedFont lib pdfDoc;
     flattenLoaded pdfDoc doc)
    (fun err => Throw err).

(** *** What a field leaves behind, read off the loop body *)

(** The heights of the pages, first page first. *)
Definition pageHeights (pdfDoc : PDFDocument) : list Qc :=
  getHeight <$> getPages pdfDoc.

(** The field goes through the signature branch: a signature field with a
    value that is not empty. *)
Definition imageBranch (values : FormValues) (field : FormField) : bool :=
  bool_decide (field_type field = signature)
  && Js.truthy (values !! label field).

(** The draw that a field leaves on a page of height [H], if any: the
    picture for a signature whose value decodes and whose [drawImage] does
    not throw, nothing for another signature with a value, the text draw
    for every other field. *)
Definition fieldDraw (values : FormValues) (H : Qc) (field : FormField)
  : option DrawOp :=
  if imageBranch values field then
    match decodeSignature (default "" (values !! label field)) with
    | Ok image =>
        match drawError lib (imageDraw H field image) with
        | None => Some (imageDraw H field image)
        | Some _ => None
        end
    | Throw _ => None
    end
  else Some (textDraw H field (default "" (values !! label field))).

(** The draws that the fields of [l] placed on page [i + 1], of height
    [H], leave on it, in the order of [l]. *)
Definition pageDraws (values : FormValues) (i : nat) (H : Qc)
    (l : list FormField) : list DrawOp :=
  omap (fun field =>
          if bool_decide (pageNumber (position field) = Z.of_nat i + 1)%Z
          then fieldDraw values H field
          else None) l.

(** The error that ends the loop at this field, if any: the error of its
    [drawText], for a field on an existing page that does not go through
    the signature branch. *)
Definition fieldThrows (values : FormValues) (heights : list Qc)
    (field : FormField) : option Error :=
  match arrayGet heights (pageNumber (position field) - 1) with
  | None => None
  | Some H =>
      if imageBranch values field then None
      else drawError lib (textDraw H field (default "" (values !! label field)))
  end.

(** No [drawText] of the fields of [l] throws. *)
Definition textDrawsSucceed (values : FormValues) (heights : list Qc)
    (l : list FormField) : Prop :=
  ∀ field, In field l → fieldThrows values heights field = None.

(** The console line that a field leaves, if any: one for a field on an
    existing page that goes through the signature branch and whose
    decoding or [drawImage] throws. *)
Definition fieldLine (values : FormValues) (heights : list Qc)
    (field : FormField) : option ConsoleLine :=
  match arrayGet heights (pageNumber (position field) - 1) with
  | None => None
  | Some H =>
      if imageBranch values field then
        match decodeSignature (default "" (values !! label field)) with
        | Throw e => Some (embeddingError e)
        | Ok image => embeddingError <$> drawError lib (imageDraw H field image)
        end
      else None
  end.

(** The height an overlay occupies above its anchor: 0 for a text draw,
    the native height of the picture times one half for an image draw. *)
Definition elementHeight (op : DrawOp) : Qc :=
  match op with
  | DrawText _ _ _ _ _ _ => Q2Qc 0
  | DrawImage image _ _ _ _ =>
      jsMul lib (Q2Qc (inject_Z (img_height image))) (Q2Qc (1 # 2))
  end.

End Flatten.

(** ** The data store as the component sees it *)

(** The row handed to [insert]; [user_id] is always [null]. *)
Record InsertRow := {
  ins_template_id : option string;
  ins_form_values : FormValues;
  ins_user_id : option string
}.

(** A row as returned by [.insert(...).select()]. *)
Record InsertedRow := {
  row_id : string
}.

Record InsertResponse := {
  ins_data : option (list InsertedRow);
  ins_error : option Error
}.

Record SelectResponse := {
  sel_data : option SignedDocument;
  sel_error : option Error
}.

Record TemplateResponse := {
  tr_data : option Template;
  tr_error : option Error
}.

Record UrlResponse := {
  publicUrl : string;
  url_error : option Error
}.

(** Requests the component sends, in the order it sends them. *)
Inductive Request :=
  | InsertSignedDocument (row : InsertRow)
  | SelectSignedDocument (documentId : string)
  | SelectTemplate (id : option string)
  | GetPublicUrl (path : string).

(** [payload.new] of an INSERT notification on [signed_documents]; a
    [template_id] of [None] is SQL [null]. *)
Record InsertPayload := {
  new_id : string;
  new_template_id : option string
}.

(** [payload.new.template_id === templateId]: the left side is a string or
    [null], the right side a string or [undefined]. *)
Definition strictEq (a b : option string) : bool :=
  match a, b with
  | Some x, Some y => bool_decide (x = y)
  | _, _ => false
  end.

(** The button at the foot of the field list. *)
Inductive ActionButton :=
  | NextFieldButton (disabled : bool)
  | SubmitButton (disabled : bool).

Section Component.

(** The persisted tables, whatever they are, and the four operations of
    the client library that the component calls. Only [insert] can change
    what is persisted. *)
Variable Store : Type.
Variable insertRow : Store → InsertRow → Store * InsertResponse.
Variable selectSignedDocument : Store → string → SelectResponse.
Variable selectTemplate : Store → option string → TemplateResponse.
Variable storagePublicUrl : Store → string → UrlResponse.

Variable route : Route.

(** One device: the persisted tables it talks to, its React state, and
    the requests it has sent so far. *)
Record World := {
  store : Store;
  ui : State;
  sent : list Request
}.

Definition withUi (f : State → State) (w : World) : World :=
  {| store := store w; ui := f (ui w); sent := sent w |}.

Definition send (r : Request) (w : World) : World :=
  {| store := store w; ui := ui w; sent := sent w ++ [r] |}.

Definition withStore (st : Store) (w : World) : World :=
  {| store := st; ui := ui w; sent := sent w |}.

(** [getSignedDocument]: one select; throws the error if there is one. *)
Definition getSignedDocument (documentId : string) (w : World)
  : World * Result (option SignedDocument) :=
  let response := selectSignedDocument (store w) documentId in
  let w' := send (SelectSignedDocument documentId) w in
  match sel_error response with
  | Some e => (w', Throw e)
  | None => (w', Ok (sel_data response))
  end.

Definition handleResize (innerWidth : Z) (s : State) : State :=
  setIsMobile (bool_decide (innerWidth ≤ 768)%Z) s.

Definition loadFailed : State → State :=
  setError (Some "Failed to load document. Please try again.").

Definition loadTemplate (w : World) : World :=
  let response := selectTemplate (store w) (templateId route) in
  let w1 := send (SelectTemplate (templateId route)) w in
  match tr_error response, tr_data response with
  | Some _, _ => withUi loadFailed w1
  | None, None => withUi loadFailed w1
  | None, Some templateData =>
      let w2 := withUi (setTemplate (Some templateData)) w1 in
      let url := storagePublicUrl (store w) (file_path templateData) in
      let w3 := send (GetPublicUrl (file_path templateData)) w2 in
      match url_error url with
      | Some _ => withUi loadFailed w3
      | None => withUi (setPdfUrl (Some (publicUrl url))) w3
      end
  end.

Definition handleFieldClick (field : FormField) (s : State) : State :=
  if bool_decide (field_type field = signature) then
    let s1 := setActiveField (Some (label field)) s in
    let s2 :=
      if isMobile s
      then setShowQRCode false (setShowSignaturePad true s1)
      else setShowQRCode false (setShowSignaturePad false s1) in
    setCurrentPage (pageNumber (position field)) s2
  else s.

(** [activeField!] is used as a key: [null] becomes the key ["null"]. *)
Definition handleSignatureSave (signatureData : string) (s : State) : State :=
  let key := default "null" (activeField s) in
  let s1 := setFormValues (fun prev => <[key := signatureData]> prev) s in
  setShowQRCode false (setActiveField None (setShowSignaturePad false s1)).

Definition handleInputChange (field : FormField) (value : string) (s : State)
  : State :=
  setFormValues (fun prev => <[label field := value]> prev) s.

Definition handleCancelSignature (s : State) : State :=
  setActiveField None (setShowQRCode false (setShowSignaturePad false s)).

Definition saveFailed : State → State :=
  setError (Some "Failed to save the document. Please try again.").

(** [handleSave], lines 256 to 294. *)
Definition handleSave (w : World) : World :=
  let s := ui w in
  match template s with
  | None => w
  | Some _ =>
      if negb (Js.truthy (templateId route)) then w
      else
        let '(ok, s1) := validateForm s in
        if negb ok then withUi (fun _ => s1) w
        else
          let w1 := withUi (fun _ => setError None (setIsSaving true s1)) w in
          let row := {| ins_template_id := templateId route;
                        ins_form_values := formValues s;
                        ins_user_id := None |} in
          let '(st, response) := insertRow (store w1) row in
          let w2 := send (InsertSignedDocument row) (withStore st w1) in
          let w3 :=
            match ins_error response, ins_data response with
            | Some _, _ => withUi saveFailed w2
            | None, Some (first :: _) =>
                if Js.truthy (Some (row_id first)) then
                  match getSignedDocument (row_id first) w2 with
                  | (w', Throw _) => withUi saveFailed w'
                  | (w', Ok newSignedDocument) =>
                      let w'' := withUi (setSignedDocument newSignedDocument) w' in
                      if isMobile s
                      then withUi (setMobileSignatureComplete true) w''
                      else w''
                  end
                else withUi saveFailed w2
            | None, _ => withUi saveFailed w2
            end in
          withUi (setIsSaving false) w3
  end.

(** [handleNextField], lines 302 to 313 (scrolling the viewer is not a
    change of state). *)
Definition handleNextField (s : State) : State :=
  match template s with
  | None => s
  | Some T =>
      if bool_decide (currentFieldIndex s < Z.of_nat (length (fields T)) - 1)%Z
      then
        let s1 := setCurrentFieldIndex (fun prevIndex => prevIndex + 1)%Z s in
        match arrayGet (fields T) (currentFieldIndex s + 1) with
        | None => s1
        | Some next =>
            let nextPage := pageNumber (position next) in
            if bool_decide (nextPage = 0) then s1 else setCurrentPage nextPage s1
        end
      else s
  end.

(** The callback of the subscription, lines 319 to 332. A rejected
    [getSignedDocument] ends the callback. *)
Definition onInsert (payload : InsertPayload) (w : World) : World :=
  if strictEq (new_template_id payload) (templateId route) then
    match getSignedDocument (new_id payload) w with
    | (w', Throw _) => w'
    | (w', Ok None) => w'
    | (w', Ok (Some updatedDocument)) =>
        withUi (fun s =>
                  setSuccess true
                    (setFormValues
                       (fun prevFormValues =>
                          form_values updatedDocument ∪ prevFormValues)
                       (setSignedDocument (Some updatedDocument) s))) w'
    end
  else w.

(** Which button lines 506 to 525 render, and whether it is disabled.
    Nothing is rendered in the mobile capture view, while the template
    loads, and after success. *)
Definition actionButton (s : State) : option ActionButton :=
  if isMobile s && isSigningMode route then None
  else
    match template s with
    | None => None
    | Some T =>
        if negb (Js.truthy (pdfUrl s)) then None
        else if success s then None
        else if bool_decide
                  (currentFieldIndex s < Z.of_nat (length (fields T)) - 1)%Z
        then
          match arrayGet (fields T) (currentFieldIndex s) with
          | None => None
          | Some current =>
              Some (NextFieldButton
                      (negb (Js.truthy (formValues s !! label current))))
          end
        else Some (SubmitButton (isSaving s || success s))
    end.

(** A click on that button: a disabled button does not call its
    handler. *)
Definition clickActionButton (w : World) : World :=
  match actionButton (ui w) with
  | Some (NextFieldButton false) => withUi handleNextField w
  | Some (SubmitButton false) => handleSave w
  | _ => w
  end.

(** Everything that can happen to a mounted component. *)
Inductive Event :=
  | Resize (innerWidth : Z)
  | LoadTemplate
  | FieldClick (field : FormField)
  | SignatureSave (signatureData : string)
  | InputChange (field : FormField) (value : string)
  | CancelSignature
  | DrawSignatureClick
  | QRCodeClick
  | QRCancelClick
  | ActionClick
  | InsertNotification (payload : InsertPayload).

Definition step (w : World) (e : Event) : World :=
  match e with
  | Resize innerWidth => withUi (handleResize innerWidth) w
  | LoadTemplate => loadTemplate w
  | FieldClick field => withUi (handleFieldClick field) w
  | SignatureSave signatureData => withUi (handleSignatureSave signatureData) w
  | InputChange field value => withUi (handleInputChange field value) w
  | CancelSignature => withUi handleCancelSignature w
  | DrawSignatureClick => withUi (setShowSignaturePad true) w
  | QRCodeClick => withUi (setShowQRCode true) w
  | QRCancelClick => withUi (fun s => setShowSignaturePad false (setShowQRCode false s)) w
  | ActionClick => clickActionButton w
  | InsertNotification payload => onInsert payload w
  end.

Definition run (w : World) (events : list Event) : World :=
  fold_left step events w.

End Component.

Arguments store {Store} w.
Arguments ui {Store} w.
Arguments sent {Store} w.
Arguments withUi {Store} f w.
Arguments send {Store} r w.
Arguments withStore {Store} st w.
Arguments getSignedDocument {Store} selectSignedDocument documentId w.
Arguments loadTemplate {Store} selectTemplate storagePublicUrl route w.
Arguments handleSave {Store} insertRow selectSignedDocument route w.
Arguments onInsert {Store} selectSignedDocument route payload w.
Arguments clickActionButton {Store} insertRow selectSignedDocument route w.
Arguments step {Store} insertRow selectSignedDocument selectTemplate
  storagePublicUrl route w e.
Arguments run {Store} insertRow selectSignedDocument selectTemplate
  storagePublicUrl route w events.

(** ** Vocabulary of the properties *)

(** A label has no usable value: it is absent from the value map, or its
    value is empty once trimmed. *)
Definition blank (V : FormValues) (l : string) : Prop :=
  V !! l = None ∨ ∃ v, V !! l = Some v ∧ Js.trim v = "".

(** A label has a value that is not empty after trimming. *)
Definition filled (V : FormValues) (l : string) : Prop :=
  ∃ v, V !! l = Some v ∧ Js.trim v ≠ "".

(** The same signed document with another field list in its template. *)
Definition withFields (l : list FormField) (doc : SignedDocument) : SignedDocument :=
  {| doc_id := doc_id doc; template_id := template_id doc;
     form_values := form_values doc; created_at := created_at doc;
     doc_template := {| tpl_id := tpl_id (doc_template doc);
                        tpl_name := tpl_name (doc_template doc);
                        fields := l;
                        file_path := file_path (doc_template doc) |} |}.



(** The data store answers a select with a record and no error. *)
Definition found (record : SignedDocument) : SelectResponse :=
  {| sel_data := Some record; sel_error := None |}.

(** The state after the subscription callback has taken in [record]. *)
Definition merged (record : SignedDocument) (s : State) : State :=
  setSuccess true
    (setFormValues (fun prev => form_values record ∪ prev)
       (setSignedDocument (Some record) s)).

(** [e] is a notification that the callback acts on: an INSERT whose
    [template_id] is the [templateId] of the route. *)
Definition matchingNotification (route : Route) (e : Event) : Prop :=
  match e with
  | InsertNotification payload =>
      ∃ tid, new_template_id payload = Some tid ∧ templateId route = Some tid
  | _ => False
  end.

(** ** A worked scenario: one text field and one signature field *)

Module Scenario.

Definition nameField : FormField :=
  {| field_type := text;
     position := {| pos_x := Q2Qc 50; pos_y := Q2Qc 100; pageNumber := 1 |};
     label := "Name"; required := true; field_id := "f-name" |}.

Definition sigField : FormField :=
  {| field_type := signature;
     position := {| pos_x := Q2Qc 50; pos_y := Q2Qc 300; pageNumber := 1 |};
     label := "Sig"; required := true; field_id := "f-sig" |}.

(** A field placed on a page the document does not have. *)
Definition strayField : FormField :=
  {| field_type := date;
     position := {| pos_x := Q2Qc 10; pos_y := Q2Qc 20; pageNumber := 3 |};
     label := "Day"; required := false; field_id := "f-day" |}.

Definition agreement : Template :=
  {| tpl_id := "t1"; tpl_name := "Agreement";
     fields := [nameField; sigField]; file_path := "agreement.pdf" |}.

Definition payload : string := "data:image/png;base64,iVBORw0KGgo=".

Definition complete : FormValues :=
  <["Name" := "Jane Doe"]> (<["Sig" := payload]> ∅).

Definition blankName : FormValues :=
  <["Name" := ""]> (<["Sig" := payload]> ∅).

Definition badSignature : FormValues :=
  <["Name" := "Jane Doe"]> (<["Sig" := "not an image"]> ∅).

(** A name with the DEL character in the middle. *)
Definition garbled : FormValues :=
  <["Name" := String "a" (String (Ascii.ascii_of_nat 127) "b")]>
    (<["Sig" := payload]> ∅).

(** Stand-ins for the library: one base64 text decodes, to the bytes of one
    picture of 200 by 81 pixels. *)
Definition atob (s : string) : Result string :=
  if String.eqb s "iVBORw0KGgo=" then Ok "PNG" else Throw "InvalidCharacterError".

Definition embedPng (bytes : list N) : Result PDFImage :=
  if bool_decide (bytes = [80; 78; 71]%N)
  then Ok {| img_width := 200; img_height := 81 |}
  else Throw "Input is not a PNG".

Definition save (d : PDFDocument) : Result (list N) :=
  Ok [N.of_nat (length (getPages d));
      N.of_nat (length (flat_map content (getPages d)))].

Definition letter : PDFDocument :=
  {| getPages := [{| getHeight := Q2Qc 792; content := [] |}]; embedded := [] |}.

(** One file parses, to the one-page letter. *)
Definition load (bytes : list N) : Result PDFDocument :=
  if bool_decide (bytes = [37; 80; 68; 70]%N)
  then Ok letter
  else Throw "Failed to parse PDF document".

(** [drawText] refuses a text with a control character; [drawImage] never
    throws. *)
Definition refused (c : ascii) : bool :=
  (N_of_ascii c <? 32)%N || (N_of_ascii c =? 127)%N.

Definition drawError (op : DrawOp) : option Error :=
  match op with
  | DrawText t _ _ _ _ _ =>
      if existsb refused (list_ascii_of_string t)
      then Some "WinAnsi cannot encode"
      else None
  | DrawImage _ _ _ _ _ => None
  end.

(** The library of the scenario, with exact arithmetic. *)
Definition library : Library :=
  Build_Library atob embedPng load (fun _ => Ok Helvetica) save
    Qcminus Qcmult drawError.

Definition signed (values : FormValues) : SignedDocument :=
  {| doc_id := "doc"; template_id := "t1"; form_values := values;
     created_at := "2025-01-01T00:00:00Z"; doc_template := agreement |}.

(** A data store that keeps the signed documents in a list and numbers
    them in unary. *)
Definition Store : Type := list SignedDocument.

Fixpoint tally (n : nat) : string :=
  match n with
  | O => ""
  | S n => String "i" (tally n)
  end.

Definition insertRow (st : Store) (row : InsertRow) : Store * InsertResponse :=
  let id := "doc-" +:+ tally (S (length st)) in
  (st ++ [{| doc_id := id;
             template_id := default "" (ins_template_id row);
             form_values := ins_form_values row;
             created_at := "2025-01-01T00:00:00Z";
             doc_template := agreement |}],
   {| ins_data := Some [{| row_id := id |}]; ins_error := None |}).

Definition selectSignedDocument (st : Store) (id : string) : SelectResponse :=
  match List.find (fun d => String.eqb (doc_id d) id) st with
  | Some d => {| sel_data := Some d; sel_error := None |}
  | None => {| sel_data := None; sel_error := Some "PGRST116" |}
  end.

Definition selectTemplate (st : Store) (id : option string) : TemplateResponse :=
  if bool_decide (id = Some "t1")
  then {| tr_data := Some agreement; tr_error := None |}
  else {| tr_data := None; tr_error := Some "PGRST116" |}.

Definition storagePublicUrl (st : Store) (path : string) : UrlResponse :=
  {| publicUrl := "https://files.example/" +:+ path; url_error := None |}.

Definition desktop : Route := {| templateId := Some "t1"; isSigningMode := false |}.

(** A desktop session with the template loaded and the given values. *)
Definition session (values : FormValues) : State :=
  setFormValues (fun _ => values)
    (setPdfUrl (Some "https://files.example/agreement.pdf")
       (setTemplate (Some agreement) (initialState 1280))).

Definition world (st : Store) (values : FormValues) : World Store :=
  {| store := st; ui := session values; sent := [] |}.

(** What a second device has persisted for the same template. *)
Definition remote : SignedDocument :=
  {| doc_id := "doc-i"; template_id := "t1";
     form_values := <["Sig" := payload]> ∅;
     created_at := "2025-01-01T00:00:00Z"; doc_template := agreement |}.

Definition notification : InsertPayload :=
  {| new_id := "doc-i"; new_template_id := Some "t1" |}.

End Scenario.

(** ** Vocabulary of the further properties *)

(** Every character of [s] is white space for [trim]. *)
Fixpoint onlyWhiteSpace (s : string) : bool :=
  match s with
  | EmptyString => true
  | String c s' => Js.isWhiteSpace c && onlyWhiteSpace s'
  end.

(** [s] has no comma. *)
Fixpoint commaFree (s : string) : bool :=
  match s with
  | EmptyString => true
  | String c s' => negb (Ascii.eqb c ",") && commaFree s'
  end.

(** *** What is on screen *)

(** The form with the viewer, the fields and the button (lines 422 to
    563): not the mobile capture view, template and URL loaded, no success
    yet. *)
Definition formShown (route : Route) (s : State) : bool :=
  negb (isMobile s && isSigningMode route)
  && bool_decide (is_Some (template s))
  && Js.truthy (pdfUrl s)
  && negb (success s).

(** The signature canvas of the mobile capture view (lines 346 to 350). *)
Definition captureShown (route : Route) (s : State) : bool :=
  isMobile s && isSigningMode route && negb (mobileSignatureComplete s).

(** The two buttons "Draw Signature" and "Sign on Mobile" under a signature
    field of the template (lines 451 to 473). *)
Definition signatureOptionsShown (route : Route) (s : State) : bool :=
  formShown route s
  && existsb (fun field =>
                bool_decide (field_type field = signature)
                && bool_decide (activeField s = Some (label field)))
       (match template s with Some T => fields T | None => [] end)
  && negb (showSignaturePad s) && negb (showQRCode s) && negb (isMobile s).

(** The signature pad of the desktop (line 532). *)
Definition padModalShown (route : Route) (s : State) : bool :=
  formShown route s
  && showSignaturePad s && Js.truthy (activeField s) && negb (isMobile s).

(** The QR code (line 543): in the page at all times, displayed unless
    [isMobile || !showQRCode || !activeField]. *)
Definition qrModalShown (route : Route) (s : State) : bool :=
  formShown route s
  && negb (isMobile s || negb (showQRCode s) || negb (Js.truthy (activeField s))).

(** Whether the element that raises an event is on screen. The viewer may
    report a click on any field and an input may change for any field while
    the form is shown; loading, resizing, notifications and the click on
    the button at the foot (which has its own test) can always happen. *)
Definition enabled (route : Route) (s : State) (e : Event) : bool :=
  match e with
  | Resize _ | LoadTemplate | ActionClick | InsertNotification _ => true
  | FieldClick _ | InputChange _ _ => formShown route s
  | SignatureSave _ => captureShown route s || padModalShown route s
  | CancelSignature => padModalShown route s
  | DrawSignatureClick | QRCodeClick => signatureOptionsShown route s
  | QRCancelClick => qrModalShown route s
  end.

(** No resize in the list makes the window wider than 768 pixels. *)
Definition staysNarrow (events : list Event) : Prop :=
  ∀ innerWidth, In (Resize innerWidth) events → (innerWidth ≤ 768)%Z.

Section Screen.

Variable Store : Type.
Variable insertRow : Store → InsertRow → Store * InsertResponse.
Variable selectSignedDocument : Store → string → SelectResponse.
Variable selectTemplate : Store → option string → TemplateResponse.
Variable storagePublicUrl : Store → string → UrlResponse.
Variable route : Route.

(** An event reaches its handler only if its element is on screen. *)
Definition guardedStep (w : World Store) (e : Event) : World Store :=
  if enabled route (ui w) e
  then step insertRow selectSignedDocument selectTemplate storagePublicUrl
         route w e
  else w.

Definition guardedRun (w : World Store) (events : list Event) : World Store :=
  fold_left guardedStep events w.

End Screen.

Arguments guardedStep {Store} insertRow selectSignedDocument selectTemplate
  storagePublicUrl route w e.
Arguments guardedRun {Store} insertRow selectSignedDocument selectTemplate
  storagePublicUrl route w events.

(** What [handleSave] inserts: the route's template, the values on screen,
    no user. *)
Definition submittedRow (route : Route) (s : State) : InsertRow :=
  {| ins_template_id := templateId route;
     ins_form_values := formValues s;
     ins_user_id := None |}.

(** The insert answered with a row that has an id, and the select for that
    id answered without error. *)
Definition saved (insertResponse : InsertResponse)
    (select : string → SelectResponse) : Prop :=
  ins_error insertResponse = None
  ∧ ∃ first rest,
      ins_data insertResponse = Some (first :: rest)
      ∧ row_id first ≠ ""
      ∧ sel_error (select (row_id first)) = None.

(** No click on the button at the foot of the form. *)
Definition noActionClick (events : list Event) : Prop :=
  ¬ In ActionClick events.

(** ** More of the worked scenario: a phone, and a data store that refuses *)

Module Walkthrough.

(** The page as opened from the QR code. *)
Definition phoneRoute : Route := {| templateId := Some "t1"; isSigningMode := true |}.

Definition phone : World Scenario.Store :=
  {| store := []; ui := initialState 390; sent := [] |}.

(** An afternoon on the phone: the template loads, a signature is drawn,
    the button is tried, the phone is turned, a notification arrives. *)
Definition afternoon : list Event :=
  [LoadTemplate; SignatureSave Scenario.payload; ActionClick; Resize 760;
   InsertNotification Scenario.notification; SignatureSave Scenario.payload].

(** A data store whose insert is refused. *)
Definition refuse (st : Scenario.Store) (row : InsertRow)
  : Scenario.Store * InsertResponse :=
  (st, {| ins_data := None; ins_error := Some "23503" |}).

(** A desktop session that shows a load error. *)
Definition troubled : World Scenario.Store :=
  {| store := [];
     ui := setError (Some "Failed to load document. Please try again.")
             (Scenario.session Scenario.complete);
     sent := [] |}.

End Walkthrough.

(** The current index is a position in the field list, or 0 when the list
    is empty. *)
Definition indexInBounds (s : State) : Prop :=
  match template s with
  | None => True
  | Some T =>
      (0 ≤ currentFieldIndex s)%Z
      ∧ (currentFieldIndex s = 0
         ∨ currentFieldIndex s < Z.of_nat (length (fields T)))%Z
  end.

(** No reload of the template. *)
Definition noReload (events : list Event) : Prop :=
  ¬ In LoadTemplate events.

(** * Properties *)

(** ** Validation: [validateForm] *)

Lemma blank_or_filled V l : blank V l ∨ filled V l.
Proof.
  unfold blank, filled. destruct (V !! l) as [v|]; [|by left; left].
  destruct (decide (Js.trim v = "")) as [E|E].
  - left; right; eauto.
  - right; eauto.
Qed.

Lemma blank_not_filled V l : blank V l → ¬ filled V l.
Proof.
  intros [E|(v & E & Hv)] (v' & E' & Hv'); rewrite E in E'; [done|].
  by injection E' as <-.
Qed.

Lemma isMissing_spec V f :
  isMissing V f = true ↔ required f = true ∧ blank V (label f).
Proof.
  unfold isMissing, blank.
  destruct (required f); simpl; [|by split; [|intros []]].
  destruct (V !! label f) as [v|]; simpl.
  - destruct v as [|c v]; simpl.
    + split; [|done]. intros _. split; [done|]. right. eexists; split; done.
    + rewrite bool_decide_eq_true. split.
      * intros E. split; [done|]. right. eauto.
      * intros [_ [?|(v' & [= <-] & E)]]; done.
  - split; [|done]. intros _. split; [done|]. by left.
Qed.

Lemma missingFields_In T V f :
  In f (missingFields T V) ↔
  In f (fields T) ∧ required f = true ∧ blank V (label f).
Proof. unfold missingFields. rewrite filter_In, isMissing_spec. tauto. Qed.

Lemma missingLabels_In T V l :
  In l (missingLabels T V) ↔
  ∃ f, In f (fields T) ∧ label f = l ∧ required f = true ∧ blank V l.
Proof.
  unfold missingLabels. rewrite in_map_iff. split.
  - intros (f & <- & Hf). apply missingFields_In in Hf. exists f. tauto.
  - intros (f & Hin & <- & Hr & Hb). exists f. split; [done|].
    apply missingFields_In. tauto.
Qed.

Lemma missingFields_nil T V :
  missingFields T V = [] ↔
  ∀ f, In f (fields T) → required f = true → filled V (label f).
Proof.
  split.
  - intros E f Hin Hr. destruct (blank_or_filled V (label f)) as [Hb|]; [|done].
    assert (In f (missingFields T V)) as Hf by (apply missingFields_In; tauto).
    rewrite E in Hf. destruct Hf.
  - intros Hall. destruct (missingFields T V) as [|f l] eqn:E; [done|].
    assert (In f (missingFields T V)) as Hf by (rewrite E; by left).
    apply missingFields_In in Hf as (Hin & Hr & Hb).
    destruct (blank_not_filled _ _ Hb (Hall f Hin Hr)).
Qed.

Lemma missingFields_cons T V :
  missingFields T V ≠ [] ↔
  ∃ f, In f (fields T) ∧ required f = true ∧ blank V (label f).
Proof.
  split.
  - destruct (missingFields T V) as [|f l] eqn:E; [done|]. intros _.
    exists f. apply missingFields_In. rewrite E. by left.
  - intros (f & Hf) E. apply missingFields_In in Hf. rewrite E in Hf.
    destruct Hf.
Qed.

(** The two ways [validateForm] ends once a template is loaded. *)
Lemma validateForm_result s T :
  template s = Some T →
  validateForm s =
    match missingFields T (formValues s) with
    | [] => (true, s)
    | _ :: _ => (false, setError (Some (missingMessage T (formValues s))) s)
    end.
Proof.
  intros HT. unfold validateForm. rewrite HT.
  destruct (missingFields T (formValues s)) as [|f l].
  - by rewrite bool_decide_false by (simpl; lia).
  - by rewrite bool_decide_true by (simpl; lia).
Qed.

(** C1. With a template [T] loaded and value map [V], [validateForm]
    returns [true] exactly when every required field has a value that is
    not empty after trimming. When it returns [false], the state is left
    untouched except for the error message, which lists the labels in
    [missingLabels T V]; a label is in that list exactly when it is the
    label of a required field whose value is absent or blank after
    trimming. *)
Theorem validateForm_required_fields (s : State) (T : Template) :
  template s = Some T →
  let V := formValues s in
  ((validateForm s).1 = true ↔
     ∀ f, In f (fields T) → required f = true → filled V (label f))
  ∧ ((validateForm s).1 = false ↔
     ∃ f, In f (fields T) ∧ required f = true ∧ blank V (label f))
  ∧ ((validateForm s).1 = false →
     (validateForm s).2 =
       setError (Some ("Please complete all required fields: "
                       +:+ Js.join ", " (missingLabels T V))) s)
  ∧ ((validateForm s).1 = true → (validateForm s).2 = s)
  ∧ (∀ l, In l (missingLabels T V) ↔
       ∃ f, In f (fields T) ∧ label f = l ∧ required f = true ∧ blank V l).
Proof.
  intros HT V.
  pose proof (missingFields_nil T V) as Hempty.
  pose proof (missingFields_cons T V) as Hsome.
  pose proof (validateForm_result s T HT) as Hres. fold V in Hres.
  rewrite Hres. split_and!.
  - rewrite <- Hempty. destruct (missingFields T V); simpl; split; done.
  - rewrite <- Hsome. destruct (missingFields T V); simpl; split; done.
  - destruct (missingFields T V); simpl; done.
  - destruct (missingFields T V); simpl; done.
  - intros l. apply missingLabels_In.
Qed.

(** ** Flattening: the loop of [downloadSignedPdf] *)

Lemma arrayGet_None {A} (l : list A) (k : Z) :
  arrayGet l k = None ↔ (k < 0 ∨ Z.of_nat (length l) ≤ k)%Z.
Proof.
  unfold arrayGet. case_bool_decide as Hk.
  - rewrite lookup_ge_None. lia.
  - split; [lia|done].
Qed.

Lemma arrayGet_Some {A} (l : list A) (k : Z) (a : A) :
  arrayGet l k = Some a ↔ (0 ≤ k)%Z ∧ l !! Z.to_nat k = Some a.
Proof.
  unfold arrayGet. case_bool_decide as Hk; [tauto|].
  split; [done|]. intros []; lia.
Qed.

Lemma arrayGet_fmap {A B} (f : A → B) (l : list A) (k : Z) :
  arrayGet (f <$> l) k = f <$> arrayGet l k.
Proof. unfold arrayGet. case_bool_decide; [apply list_lookup_fmap|done]. Qed.

Lemma orEmpty_truthy (v : option string) :
  Js.truthy (Some (Js.orEmpty v)) = Js.truthy v.
Proof. by destruct v as [[|c v]|]. Qed.

Lemma orEmpty_default (v : option string) : Js.orEmpty v = default "" v.
Proof. by destruct v as [[|c v]|]. Qed.

Lemma forOf_cons {A S} (a : A) (l : list A) (body : S → A → Result S) (s : S) :
  forOf (a :: l) body s = (s' ← body s a; forOf l body s').
Proof. reflexivity. Qed.

Lemma forOf_app {A S} (l1 l2 : list A) (body : S → A → Result S) (s : S) :
  forOf (l1 ++ l2) body s = (s' ← forOf l1 body s; forOf l2 body s').
Proof.
  revert s. induction l1 as [|a l1 IH]; intros s; simpl; [done|].
  destruct (body s a) as [s1|e]; simpl; [apply IH|done].
Qed.

Lemma page_eta (page : PDFPage) :
  page = {| getHeight := getHeight page; content := content page ++ [] |}.
Proof. destruct page. simpl. by rewrite app_nil_r. Qed.

Lemma Qcminus_zero (q : Qc) : (q - Q2Qc 0)%Qc = q.
Proof. ring. Qed.

Section FlattenProofs.

Variable lib : Library.

Lemma pageHeights_length (pdfDoc : PDFDocument) :
  length (pageHeights pdfDoc) = length (getPages pdfDoc).
Proof. unfold pageHeights. apply length_fmap. Qed.

Lemma pageHeights_draw (pdfDoc : PDFDocument) (k : nat) (page : PDFPage)
    (op : DrawOp) :
  getPages pdfDoc !! k = Some page →
  pageHeights (updatePage k (draw op page) pdfDoc) = pageHeights pdfDoc.
Proof.
  intros Hk. unfold pageHeights. simpl. rewrite list_fmap_insert. simpl.
  apply list_insert_id. by rewrite list_lookup_fmap, Hk.
Qed.

Lemma lookup_draw (pdfDoc : PDFDocument) (k : Z) (page : PDFPage) (op : DrawOp)
    (i : nat) (p : PDFPage) (field : FormField) (values : FormValues) :
  k = (pageNumber (position field) - 1)%Z →
  arrayGet (getPages pdfDoc) k = Some page →
  getPages pdfDoc !! i = Some p →
  fieldDraw lib values (getHeight page) field = Some op →
  <[Z.to_nat k := draw op page]> (getPages pdfDoc) !! i
  = Some {| getHeight := getHeight p;
            content := content p
                       ++ pageDraws lib values i (getHeight p) [field] |}.
Proof.
  intros -> [Hk Hpage]%arrayGet_Some Hi Hdraw.
  unfold pageDraws. cbn [omap list_omap].
  destruct (decide (i = Z.to_nat (pageNumber (position field) - 1)))
    as [->|Hne].
  - assert (p = page) as -> by congruence.
    rewrite list_lookup_insert_eq by (by eapply lookup_lt_Some).
    rewrite bool_decide_true by lia. by rewrite Hdraw.
  - rewrite list_lookup_insert_ne by done.
    rewrite bool_decide_false by lia. simpl. rewrite Hi. f_equal.
    apply page_eta.
Qed.

Lemma lookup_no_draw (pdfDoc : PDFDocument) (i : nat) (p : PDFPage)
    (field : FormField) (values : FormValues) :
  getPages pdfDoc !! i = Some p →
  (pageNumber (position field) = Z.of_nat i + 1 →
   fieldDraw lib values (getHeight p) field = None)%Z →
  getPages pdfDoc !! i
  = Some {| getHeight := getHeight p;
            content := content p
                       ++ pageDraws lib values i (getHeight p) [field] |}.
Proof.
  intros Hi Hnone. unfold pageDraws. cbn [omap list_omap].
  case_bool_decide as Hpn.
  - rewrite (Hnone Hpn). simpl. rewrite Hi. f_equal. apply page_eta.
  - simpl. rewrite Hi. f_equal. apply page_eta.
Qed.

(** One turn of the loop: it throws the error of its [drawText], or it
    returns with the console line and the draw of its field. *)
Lemma overlayField_summary (values : FormValues) (pdfDoc : PDFDocument)
    (console : list ConsoleLine) (field : FormField) :
  match fieldThrows lib values (pageHeights pdfDoc) field with
  | Some e => overlayField lib values (pdfDoc, console) field = Throw e
  | None =>
      ∃ pdfDoc',
        overlayField lib values (pdfDoc, console) field
        = Ok (pdfDoc',
              console
              ++ option_list (fieldLine lib values (pageHeights pdfDoc) field))
        ∧ pageHeights pdfDoc' = pageHeights pdfDoc
        ∧ ∀ (i : nat) (page : PDFPage),
            getPages pdfDoc !! i = Some page →
            getPages pdfDoc' !! i
            = Some {| getHeight := getHeight page;
                      content := content page
                                 ++ pageDraws lib values i (getHeight page)
                                      [field] |}
  end.
Proof.
  unfold fieldThrows, fieldLine, overlayField, pageHeights.
  rewrite arrayGet_fmap.
  destruct (arrayGet (getPages pdfDoc) (pageNumber (position field) - 1))
    as [page|] eqn:Hpage; cbn [fmap option_fmap option_map].
  - rewrite orEmpty_truthy, orEmpty_default. fold (imageBranch values field).
    pose proof Hpage as [Hk Hlook]%arrayGet_Some.
    destruct (imageBranch values field) eqn:Hbranch.
    + destruct (decodeSignature lib (default "" (values !! label field)))
        as [image|e] eqn:Hdecode.
      * unfold drawOn.
        destruct (drawError lib (imageDraw lib (getHeight page) field image))
          as [e|] eqn:Hdraw; simpl.
        -- exists (registerImage image pdfDoc). split; [done|]. split; [done|].
           intros i p Hi. simpl. apply lookup_no_draw; [done|].
           intros Hpn.
           assert (p = page) as ->.
           { assert (i = Z.to_nat (pageNumber (position field) - 1)) as ->
               by lia. congruence. }
           unfold fieldDraw. by rewrite Hbranch, Hdecode, Hdraw.
        -- eexists. rewrite app_nil_r. split; [done|]. split.
           ++ by apply (pageHeights_draw (registerImage image pdfDoc)).
           ++ intros i p Hi. simpl.
              apply (lookup_draw pdfDoc _ page); try done.
              unfold fieldDraw. by rewrite Hbranch, Hdecode, Hdraw.
      * exists pdfDoc. split; [done|]. split; [done|].
        intros i p Hi. apply lookup_no_draw; [done|]. intros _.
        unfold fieldDraw. by rewrite Hbranch, Hdecode.
    + unfold drawOn.
      destruct (drawError lib (textDraw lib (getHeight page) field
                                 (default "" (values !! label field))))
        as [e|] eqn:Hdraw; simpl; [done|].
      eexists. rewrite app_nil_r. split; [done|]. split.
      * by apply pageHeights_draw.
      * intros i p Hi. simpl. apply (lookup_draw pdfDoc _ page); try done.
        unfold fieldDraw. by rewrite Hbranch.
  - exists pdfDoc. rewrite app_nil_r. split; [done|]. split; [done|].
    intros i p Hi. apply lookup_no_draw; [done|]. intros Hpn.
    apply arrayGet_None in Hpage. apply lookup_lt_Some in Hi. lia.
Qed.

Lemma pageDraws_cons values i H field l :
  pageDraws lib values i H (field :: l)
  = pageDraws lib values i H [field] ++ pageDraws lib values i H l.
Proof. unfold pageDraws. cbn [omap list_omap]. by case_match. Qed.

(** If the loop returns, the pages have kept their heights. *)
Lemma overlayFields_heights values l pdfDoc console pdfDoc' console' :
  overlayFields lib values l (pdfDoc, console) = Ok (pdfDoc', console') →
  pageHeights pdfDoc' = pageHeights pdfDoc.
Proof.
  unfold overlayFields. revert pdfDoc console.
  induction l as [|f l IH]; intros pdfDoc console.
  - by intros [= <- <-].
  - rewrite forOf_cons.
    pose proof (overlayField_summary values pdfDoc console f) as Hturn.
    destruct (fieldThrows lib values (pageHeights pdfDoc) f) as [e|].
    + by rewrite Hturn.
    + destruct Hturn as (d1 & -> & Hheights & _). unfold mbind, Result_bind.
      intros Hrest. apply IH in Hrest. congruence.
Qed.

(** When no [drawText] throws, the loop returns, with the console lines and
    the draws of its fields in order. *)
Lemma overlayFields_succeed values l pdfDoc console :
  textDrawsSucceed lib values (pageHeights pdfDoc) l →
  ∃ pdfDoc',
    overlayFields lib values l (pdfDoc, console)
    = Ok (pdfDoc',
          console ++ omap (fieldLine lib values (pageHeights pdfDoc)) l)
    ∧ pageHeights pdfDoc' = pageHeights pdfDoc
    ∧ ∀ (i : nat) (page : PDFPage),
        getPages pdfDoc !! i = Some page →
        getPages pdfDoc' !! i
        = Some {| getHeight := getHeight page;
                  content := content page
                             ++ pageDraws lib values i (getHeight page) l |}.
Proof.
  unfold overlayFields. revert pdfDoc console.
  induction l as [|f l IH]; intros pdfDoc console Hok.
  - exists pdfDoc. simpl. rewrite app_nil_r. split; [done|]. split; [done|].
    intros i page Hi. rewrite Hi. f_equal. apply page_eta.
  - rewrite forOf_cons.
    pose proof (overlayField_summary values pdfDoc console f) as Hturn.
    rewrite (Hok f) in Hturn by (by left).
    destruct Hturn as (d1 & -> & Hheights & Hpages1).
    unfold mbind, Result_bind.
    destruct (IH d1 (console ++ option_list
                       (fieldLine lib values (pageHeights pdfDoc) f)))
      as (d2 & -> & Hheights2 & Hpages2).
    { rewrite Hheights. intros g Hg. apply Hok. by right. }
    exists d2. rewrite Hheights. split; [|split; [congruence|]].
    + rewrite <- app_assoc. cbn [omap list_omap].
      by destruct (fieldLine lib values (pageHeights pdfDoc) f).
    + intros i page Hi. rewrite (Hpages2 i _ (Hpages1 i page Hi)).
      cbn [getHeight content].
      by rewrite (pageDraws_cons _ _ _ f l), app_assoc.
Qed.

(** The loop throws exactly the error of the first [drawText] that
    throws. *)
Lemma overlayFields_throw values l pdfDoc console e :
  overlayFields lib values l (pdfDoc, console) = Throw e
  ↔ ∃ pre field post,
      l = pre ++ field :: post
      ∧ textDrawsSucceed lib values (pageHeights pdfDoc) pre
      ∧ fieldThrows lib values (pageHeights pdfDoc) field = Some e.
Proof.
  unfold overlayFields. revert pdfDoc console.
  induction l as [|f l IH]; intros pdfDoc console.
  - simpl. split; [done|]. intros (pre & g & post & Hl & _).
    by destruct pre.
  - rewrite forOf_cons.
    pose proof (overlayField_summary values pdfDoc console f) as Hturn.
    destruct (fieldThrows lib values (pageHeights pdfDoc) f) as [e0|] eqn:Hf.
    + rewrite Hturn. simpl. split.
      * intros [= ->]. exists [], f, l. split; [done|]. split; [|done].
        by intros g [].
      * intros (pre & g & post & Hl & Hpre & Hg). destruct pre as [|f' pre].
        -- simpl in Hl. injection Hl as <- <-. congruence.
        -- simpl in Hl. injection Hl as <- ->.
           rewrite (Hpre f) in Hf by (by left). done.
    + destruct Hturn as (d1 & -> & Hheights & _). unfold mbind, Result_bind.
      rewrite IH, Hheights. split.
      * intros (pre & g & post & -> & Hpre & Hg).
        exists (f :: pre), g, post. split; [done|]. split; [|done].
        intros h [<-|Hh]; [done|by apply Hpre].
      * intros (pre & g & post & Hl & Hpre & Hg). destruct pre as [|f' pre].
        -- simpl in Hl. injection Hl as <- <-. congruence.
        -- simpl in Hl. injection Hl as <- ->.
           exists pre, g, post. split; [done|]. split; [|done].
           intros h Hh. apply Hpre. by right.
Qed.




Lemma overlayField_skip values st field :
  arrayGet (getPages st.1) (pageNumber (position field) - 1) = None →
  overlayField lib values st field = Ok st.
Proof. destruct st as [d c]. unfold overlayField. simpl. by intros ->. Qed.


(** C2. Provided no [drawText] of the list throws, the loop over a field
    list returns, and in the document it leaves every page has its old
    height and, after its old content, the draws of the fields placed on
    it, one for each field that is drawn, in the order of the list. The
    draw of a field on a page of height [H] has the field's x unchanged and
    y equal to [H - field.y - elementHeight], in the arithmetic of the
    library, in which subtracting 0 changes nothing: [elementHeight] is 0
    for a text draw, which is what every text or date field gets (its
    value in size 12, Helvetica, black), and for an image draw, which only
    a signature field gets, it is the drawn height, the native height times
    one half, the width being the native width times one half. *)
Theorem flatten_draw_coordinates (values : FormValues) (l : list FormField)
    (pdfDoc : PDFDocument) (console : list ConsoleLine) :
  (∀ q, jsSub lib q (Q2Qc 0) = q) →
  textDrawsSucceed lib values (pageHeights pdfDoc) l →
  (∃ pdfDoc' console',
     overlayFields lib values l (pdfDoc, console) = Ok (pdfDoc', console')
     ∧ length (getPages pdfDoc') = length (getPages pdfDoc)
     ∧ ∀ (i : nat) (page : PDFPage),
         getPages pdfDoc !! i = Some page →
         getPages pdfDoc' !! i
         = Some {| getHeight := getHeight page;
                   content := content page
                              ++ pageDraws lib values i (getHeight page) l |})
  ∧ (∀ (field : FormField) (H : Qc) (op : DrawOp),
       fieldDraw lib values H field = Some op →
       opX op = pos_x (position field)
       ∧ opY op = jsSub lib (jsSub lib H (pos_y (position field)))
                    (elementHeight lib op)
       ∧ match op with
         | DrawText t _ _ _ _ _ =>
             elementHeight lib op = Q2Qc 0
             ∧ t = default "" (values !! label field)
         | DrawImage image _ _ w h =>
             field_type field = signature
             ∧ decodeSignature lib (default "" (values !! label field))
               = Ok image
             ∧ h = elementHeight lib op
             ∧ w = jsMul lib (Q2Qc (inject_Z (img_width image))) (Q2Qc (1 # 2))
             ∧ h = jsMul lib (Q2Qc (inject_Z (img_height image))) (Q2Qc (1 # 2))
         end)
  ∧ (∀ (field : FormField) (H : Qc),
       field_type field ≠ signature →
       fieldDraw lib values H field
       = Some (DrawText (default "" (values !! label field))
                 (pos_x (position field))
                 (jsSub lib H (pos_y (position field)))
                 12 Helvetica (rgb (Q2Qc 0) (Q2Qc 0) (Q2Qc 0)))).
Proof.
  intros Hzero Hok. split; [|split].
  - destruct (overlayFields_succeed values l pdfDoc console Hok)
      as (d' & Hrun & Hheights & Hpages).
    eexists d', _. split; [exact Hrun|]. split; [|exact Hpages].
    by rewrite <- !pageHeights_length, Hheights.
  - intros field H op. unfold fieldDraw, imageBranch.
    destruct (bool_decide (field_type field = signature)) eqn:Hty;
      cbn [andb].
    + apply bool_decide_eq_true in Hty.
      destruct (Js.truthy (values !! label field)).
      * destruct (decodeSignature lib (default "" (values !! label field)))
          as [image|e]; [|done].
        destruct (drawError lib (imageDraw lib H field image)); [done|].
        by intros [= <-].
      * intros [= <-]. cbn. by rewrite Hzero.
    + intros [= <-]. cbn. by rewrite Hzero.
  - intros field H Hty. unfold fieldDraw, imageBranch.
    by rewrite bool_decide_false by done.
Qed.

(** C5. A field whose page number is below 1 or above the number of pages
    is passed over by its turn of the loop, which returns the document and
    the console as they were; the loop over a field list that contains such
    a field has the same result as the loop over the list without it, a
    result that is a normal return when no [drawText] of the other fields
    throws; and the whole flattening of an already loaded document has the
    same result too. *)
Theorem flatten_skips_unresolved_page (doc : SignedDocument)
    (pre post : list FormField) (field : FormField)
    (pdfDoc : PDFDocument) (console : list ConsoleLine) :
  (pageNumber (position field) ≤ 0
   ∨ Z.of_nat (length (getPages pdfDoc)) < pageNumber (position field))%Z →
  overlayField lib (form_values doc) (pdfDoc, console) field
    = Ok (pdfDoc, console)
  ∧ overlayFields lib (form_values doc) (pre ++ field :: post) (pdfDoc, console)
    = overlayFields lib (form_values doc) (pre ++ post) (pdfDoc, console)
  ∧ (textDrawsSucceed lib (form_values doc) (pageHeights pdfDoc) (pre ++ post) →
     ∃ st,
       overlayFields lib (form_values doc) (pre ++ field :: post)
         (pdfDoc, console) = Ok st
       ∧ overlayFields lib (form_values doc) (pre ++ post)
           (pdfDoc, console) = Ok st)
  ∧ flattenLoaded lib pdfDoc (withFields (pre ++ field :: post) doc)
    = flattenLoaded lib pdfDoc (withFields (pre ++ post) doc).
Proof.
  intros Hout.
  assert (Hskip : ∀ d, pageHeights d = pageHeights pdfDoc →
            arrayGet (getPages d) (pageNumber (position field) - 1) = None).
  { intros d Hd. apply arrayGet_None.
    rewrite <- pageHeights_length, Hd, pageHeights_length. lia. }
  assert (Hloop : ∀ c,
            overlayFields lib (form_values doc) (pre ++ field :: post) (pdfDoc, c)
            = overlayFields lib (form_values doc) (pre ++ post) (pdfDoc, c)).
  { intros c. unfold overlayFields. rewrite !forOf_app.
    destruct (forOf pre (overlayField lib (form_values doc)) (pdfDoc, c))
      as [[d1 c1]|e1] eqn:Hpre; [|done].
    apply overlayFields_heights in Hpre. unfold mbind, Result_bind.
    rewrite forOf_cons, overlayField_skip by (by apply Hskip). done. }
  split_and!.
  - by apply overlayField_skip, Hskip.
  - apply Hloop.
  - intros Hok.
    destruct (overlayFields_succeed (form_values doc) (pre ++ post) pdfDoc
                console Hok) as (d & Hrun & _).
    eexists. by rewrite Hloop.
  - unfold flattenLoaded. simpl. by rewrite Hloop.
Qed.


(** C9, as amended. For a text or date field whose page exists, the turn of
    the loop calls [drawText] once, on that page, with the field's x, with
    y = page height - field.y, size 12, the Helvetica font and black; the
    string passed is the field's value as it is in the value map, and the
    empty string when the value is absent. The call is made also when the
    value is absent or empty. If the call returns, the page has one more
    draw, the call, after its old content, and the other pages, the number
    of pages and the embedded images are as before; if the call throws,
    the turn throws its error and so does the loop over any field list that
    starts with the field. *)
Theorem flatten_text_field (values : FormValues) (field : FormField)
    (rest : list FormField) (pdfDoc : PDFDocument) (console : list ConsoleLine)
    (page : PDFPage) :
  field_type field = text ∨ field_type field = date →
  arrayGet (getPages pdfDoc) (pageNumber (position field) - 1) = Some page →
  ∃ drawn,
    let op := DrawText drawn (pos_x (position field))
                (jsSub lib (getHeight page) (pos_y (position field)))
                12 Helvetica (rgb (Q2Qc 0) (Q2Qc 0) (Q2Qc 0)) in
    (∀ value, values !! label field = Some value → drawn = value)
    ∧ (values !! label field = None → drawn = "")
    ∧ match drawError lib op with
      | None =>
          ∃ pdfDoc',
            overlayField lib values (pdfDoc, console) field
            = Ok (pdfDoc', console)
            ∧ getPages pdfDoc' !! Z.to_nat (pageNumber (position field) - 1)
              = Some {| getHeight := getHeight page;
                        content := content page ++ [op] |}
            ∧ (∀ i, i ≠ Z.to_nat (pageNumber (position field) - 1) →
                    getPages pdfDoc' !! i = getPages pdfDoc !! i)
            ∧ length (getPages pdfDoc') = length (getPages pdfDoc)
            ∧ embedded pdfDoc' = embedded pdfDoc
      | Some e =>
          overlayField lib values (pdfDoc, console) field = Throw e
          ∧ overlayFields lib values (field :: rest) (pdfDoc, console)
            = Throw e
      end.
Proof.
  intros Hty Hpage. exists (Js.orEmpty (values !! label field)).
  cbn zeta. split; [|split].
  - intros value ->. by destruct value.
  - by intros ->.
  - assert (Hturn :
      overlayField lib values (pdfDoc, console) field
      = (drawn ← drawOn lib (Z.to_nat (pageNumber (position field) - 1)) page
                   (textDraw lib (getHeight page) field
                      (Js.orEmpty (values !! label field))) pdfDoc;
         Ok (drawn, console))).
    { unfold overlayField. rewrite Hpage.
      rewrite bool_decide_false by (destruct Hty as [-> | ->]; discriminate).
      done. }
    unfold overlayFields. rewrite forOf_cons, Hturn.
    unfold drawOn, textDraw, black.
    apply arrayGet_Some in Hpage as [Hk Hlook].
    destruct (drawError lib _) as [e|]; [done|].
    eexists. split; [done|]. simpl. split_and!.
    + apply list_lookup_insert_eq. by eapply lookup_lt_Some.
    + intros i Hi. by apply list_lookup_insert_ne.
    + apply length_insert.
    + done.
Qed.

End FlattenProofs.

(** ** The component: saving, stepping through the fields, hand-off *)

Lemma strictEq_true (a b : option string) :
  strictEq a b = true ↔ ∃ tid, a = Some tid ∧ b = Some tid.
Proof.
  destruct a as [x|], b as [y|]; simpl; try (split; [done|by intros (? & ? & ?)]).
  rewrite bool_decide_eq_true. split.
  - intros ->. eauto.
  - intros (tid & [= ->] & [= ->]). done.
Qed.

Lemma truthy_false (v : option string) :
  Js.truthy v = false ↔ v = None ∨ v = Some "".
Proof.
  destruct v as [[|c v]|]; simpl.
  - split; [by right|done].
  - split; [done|]. intros [|]; done.
  - split; [by left|done].
Qed.

Section ComponentProofs.

Variable Store : Type.
Variable insertRow : Store → InsertRow → Store * InsertResponse.
Variable selectSignedDocument : Store → string → SelectResponse.
Variable selectTemplate : Store → option string → TemplateResponse.
Variable storagePublicUrl : Store → string → UrlResponse.
Variable route : Route.

Lemma validateForm_false_blank s T :
  template s = Some T →
  (∃ f, In f (fields T) ∧ required f = true ∧ blank (formValues s) (label f)) →
  validateForm s = (false, setError (Some (missingMessage T (formValues s))) s).
Proof.
  intros HT Hex. rewrite (validateForm_result s T HT).
  apply missingFields_cons in Hex.
  destruct (missingFields T (formValues s)); done.
Qed.

(** C3. When some required field of the loaded template is absent from the
    value map or blank after trimming, [handleSave] sends nothing and
    leaves the persisted tables as they were: the list of requests and the
    store are unchanged, [isSaving] is never raised, and the only change
    of state is the error message of [validateForm]. The same holds for a
    click on the button at the foot of the form. *)
Theorem handleSave_rejects_before_insert (w : World Store) (T : Template) :
  template (ui w) = Some T →
  (∃ f, In f (fields T) ∧ required f = true
        ∧ blank (formValues (ui w)) (label f)) →
  let w' := handleSave insertRow selectSignedDocument route w in
  store w' = store w
  ∧ sent w' = sent w
  ∧ (∀ row, In (InsertSignedDocument row) (sent w') →
            In (InsertSignedDocument row) (sent w))
  ∧ (ui w' = ui w
     ∨ ui w' = setError (Some (missingMessage T (formValues (ui w)))) (ui w))
  ∧ isSaving (ui w') = isSaving (ui w)
  ∧ (Js.truthy (templateId route) = true →
     (validateForm (ui w)).1 = false
     ∧ error (ui w') = Some (missingMessage T (formValues (ui w))))
  ∧ store (clickActionButton insertRow selectSignedDocument route w) = store w
  ∧ sent (clickActionButton insertRow selectSignedDocument route w) = sent w.
Proof.
  intros HT Hex w'.
  assert (Hsave : w' = w
                  ∨ (Js.truthy (templateId route) = true
                     ∧ w' = withUi (fun _ => setError
                              (Some (missingMessage T (formValues (ui w))))
                              (ui w)) w)).
  { subst w'. unfold handleSave. rewrite HT.
    destruct (Js.truthy (templateId route)); simpl; [|by left].
    rewrite (validateForm_false_blank _ T HT Hex). simpl. by right. }
  assert (Hst : store w' = store w ∧ sent w' = sent w).
  { destruct Hsave as [->|[_ ->]]; done. }
  destruct Hst as [Hst Hsent].
  split_and!.
  - done.
  - done.
  - intros row. by rewrite Hsent.
  - destruct Hsave as [->|[_ ->]]; [by left|by right].
  - destruct Hsave as [->|[_ ->]]; done.
  - intros Htr. split; [by rewrite (validateForm_false_blank _ T HT Hex)|].
    subst w'. unfold handleSave. rewrite HT, Htr. simpl.
    by rewrite (validateForm_false_blank _ T HT Hex).
  - unfold clickActionButton.
    destruct (actionButton route (ui w)) as [[[]|[]]|]; done.
  - unfold clickActionButton.
    destruct (actionButton route (ui w)) as [[[]|[]]|]; done.
Qed.

(** [handleSave] writes [isSaving], [error], [signedDocument] and
    [mobileSignatureComplete] and nothing else. *)
Lemma handleSave_keeps (w : World Store) :
  let s' := ui (handleSave insertRow selectSignedDocument route w) in
  success s' = success (ui w)
  ∧ currentFieldIndex s' = currentFieldIndex (ui w)
  ∧ formValues s' = formValues (ui w)
  ∧ template s' = template (ui w).
Proof.
  unfold handleSave, getSignedDocument, validateForm.
  repeat (case_match; simplify_eq/=); done.
Qed.

(** C6. With a template loaded, [handleNextField] on an index below the
    last one adds exactly one to the index and leaves the template (hence
    the order of its fields) and the values alone; on the last index or
    beyond it returns the state as it is. A click on the button at the foot
    of the form does nothing at all while the current field has no value
    (absent or empty) and the index is below the last one; when the form
    is shown and the current field has a value the click is
    [handleNextField]; and whatever the state, a click leaves the index
    where it is or moves it by one. *)
Theorem handleNextField_next_in_order (w : World Store) (T : Template) :
  template (ui w) = Some T →
  let s := ui w in
  let last := (Z.of_nat (length (fields T)) - 1)%Z in
  let click := clickActionButton insertRow selectSignedDocument route in
  ((currentFieldIndex s < last)%Z →
     currentFieldIndex (handleNextField s) = (currentFieldIndex s + 1)%Z
     ∧ template (handleNextField s) = Some T
     ∧ formValues (handleNextField s) = formValues s)
  ∧ ((last ≤ currentFieldIndex s)%Z → handleNextField s = s)
  ∧ (∀ current,
       arrayGet (fields T) (currentFieldIndex s) = Some current →
       (currentFieldIndex s < last)%Z →
       formValues s !! label current = None
       ∨ formValues s !! label current = Some "" →
       click w = w)
  ∧ (∀ current,
       arrayGet (fields T) (currentFieldIndex s) = Some current →
       (currentFieldIndex s < last)%Z →
       Js.truthy (formValues s !! label current) = true →
       isMobile s && isSigningMode route = false →
       Js.truthy (pdfUrl s) = true →
       success s = false →
       click w = withUi handleNextField w)
  ∧ (currentFieldIndex (ui (click w)) = currentFieldIndex s
     ∨ currentFieldIndex (ui (click w)) = (currentFieldIndex s + 1)%Z)
  ∧ template (ui (click w)) = Some T.
Proof.
  intros HT s last click.
  assert (Hs : template s = Some T) by done.
  assert (Hadv : (currentFieldIndex s < last)%Z →
            currentFieldIndex (handleNextField s) = (currentFieldIndex s + 1)%Z
            ∧ template (handleNextField s) = Some T
            ∧ formValues (handleNextField s) = formValues s).
  { intros Hlt. unfold handleNextField. fold s. rewrite Hs.
    rewrite bool_decide_true by done.
    repeat case_match; simpl; done. }
  assert (Hstay : (last ≤ currentFieldIndex s)%Z → handleNextField s = s).
  { intros Hge. unfold handleNextField. fold s. rewrite Hs.
    rewrite bool_decide_false by (subst last; lia). done. }
  split_and!; try done.
  - intros current Hcur Hlt Hempty. subst click.
    unfold clickActionButton, actionButton. fold s. rewrite Hs, Hcur.
    rewrite bool_decide_true by done.
    apply truthy_false in Hempty. rewrite Hempty. simpl.
    repeat case_match; done.
  - intros current Hcur Hlt Hval Hview Hurl Hsucc. subst click.
    unfold clickActionButton, actionButton. fold s.
    rewrite Hview, Hs, Hurl, Hsucc, Hcur, Hval. simpl.
    rewrite bool_decide_true by done. done.
  - subst click. unfold clickActionButton.
    destruct (actionButton route (ui w)) as [[[]|[]]|]; try by left.
    + simpl. fold s.
      destruct (Z_lt_le_dec (currentFieldIndex s) last) as [Hlt|Hge].
      * right. by apply Hadv.
      * left. by rewrite Hstay.
    + left. apply handleSave_keeps.
  - subst click. unfold clickActionButton.
    destruct (actionButton route (ui w)) as [[[]|[]]|]; try done.
    + simpl. fold s.
      destruct (Z_lt_le_dec (currentFieldIndex s) last) as [Hlt|Hge].
      * by apply Hadv.
      * by rewrite Hstay.
    + rewrite <- HT. apply handleSave_keeps.
Qed.

Lemma merged_lookup record s l :
  formValues (merged record s) !! l =
  match form_values record !! l with
  | Some v => Some v
  | None => formValues s !! l
  end.
Proof.
  unfold merged. simpl. rewrite lookup_union.
  destruct (form_values record !! l), (formValues s !! l); done.
Qed.

Lemma onInsert_found payload record tid (w : World Store) :
  new_template_id payload = Some tid →
  templateId route = Some tid →
  selectSignedDocument (store w) (new_id payload) = found record →
  onInsert selectSignedDocument route payload w =
  {| store := store w;
     ui := merged record (ui w);
     sent := sent w ++ [SelectSignedDocument (new_id payload)] |}.
Proof.
  intros Hp Hr Hsel. unfold onInsert, getSignedDocument.
  rewrite Hp, Hr, Hsel. simpl. rewrite bool_decide_true by done. done.
Qed.

(** C7. The subscription callback returns the world as it is, without any
    request, for a notification whose [template_id] is not the route's
    [templateId]. For a notification that matches and whose record the
    data store returns, it sends one select for the record's id, stores the
    record in [signedDocument], merges the record's [form_values] over
    [formValues] (a label of the record takes the record's value, any
    other label keeps its own) and sets [success]; nothing is persisted and
    the rest of the state is as before. *)
Theorem onInsert_matching_template (payload : InsertPayload) (w : World Store) :
  let w' := onInsert selectSignedDocument route payload w in
  ((¬ ∃ tid, new_template_id payload = Some tid ∧ templateId route = Some tid) →
   w' = w)
  ∧ (∀ tid record,
       new_template_id payload = Some tid →
       templateId route = Some tid →
       selectSignedDocument (store w) (new_id payload) = found record →
       sent w' = sent w ++ [SelectSignedDocument (new_id payload)]
       ∧ store w' = store w
       ∧ signedDocument (ui w') = Some record
       ∧ formValues (ui w') = form_values record ∪ formValues (ui w)
       ∧ (∀ l v, form_values record !! l = Some v →
                 formValues (ui w') !! l = Some v)
       ∧ (∀ l, form_values record !! l = None →
               formValues (ui w') !! l = formValues (ui w) !! l)
       ∧ success (ui w') = true
       ∧ ui w' = setSuccess true
                   (setFormValues (fun prev => form_values record ∪ prev)
                      (setSignedDocument (Some record) (ui w)))).
Proof.
  intros w'. split.
  - intros Hno. subst w'. unfold onInsert.
    destruct (strictEq _ _) eqn:E; [|done].
    apply strictEq_true in E. done.
  - intros tid record Hp Hr Hsel. subst w'.
    rewrite (onInsert_found payload record tid w Hp Hr Hsel). simpl.
    split_and!; try done.
    + intros l v Hl. by apply lookup_union_Some_l.
    + intros l Hl. by apply lookup_union_r.
Qed.

(** C8. The callback has no memory of earlier completions: whatever the
    state, also with [success] already set and a signed document already
    stored, two matching notifications (for the same record or for two
    records) are both taken in. After the first, [success] is set; after
    the second, the stored document is the second record and its values
    lie over those of the first, which lie over the values held before.
    Two selects have been sent, one per notification. *)
Theorem onInsert_accepts_every_matching_event
    (p1 p2 : InsertPayload) (r1 r2 : SignedDocument) (tid : string)
    (w : World Store) :
  templateId route = Some tid →
  new_template_id p1 = Some tid →
  new_template_id p2 = Some tid →
  selectSignedDocument (store w) (new_id p1) = found r1 →
  selectSignedDocument (store w) (new_id p2) = found r2 →
  let w1 := onInsert selectSignedDocument route p1 w in
  let w2 := onInsert selectSignedDocument route p2 w1 in
  ui w1 = merged r1 (ui w)
  ∧ success (ui w1) = true
  ∧ signedDocument (ui w1) = Some r1
  ∧ ui w2 = merged r2 (merged r1 (ui w))
  ∧ success (ui w2) = true
  ∧ signedDocument (ui w2) = Some r2
  ∧ formValues (ui w2) = form_values r2 ∪ (form_values r1 ∪ formValues (ui w))
  ∧ (∀ l v, form_values r2 !! l = Some v → formValues (ui w2) !! l = Some v)
  ∧ sent w2 = sent w ++ [SelectSignedDocument (new_id p1);
                         SelectSignedDocument (new_id p2)]
  ∧ store w2 = store w.
Proof.
  intros Hr Hp1 Hp2 Hs1 Hs2 w1 w2.
  assert (E1 : w1 = {| store := store w; ui := merged r1 (ui w);
                       sent := sent w ++ [SelectSignedDocument (new_id p1)] |})
    by (by apply onInsert_found with tid).
  assert (E2 : w2 = {| store := store w; ui := merged r2 (merged r1 (ui w));
                       sent := (sent w ++ [SelectSignedDocument (new_id p1)])
                               ++ [SelectSignedDocument (new_id p2)] |}).
  { subst w2. rewrite E1. by rewrite (onInsert_found p2 r2 tid). }
  rewrite E1, E2. simpl. split_and!; try done.
  - intros l v Hl. by apply lookup_union_Some_l.
  - by rewrite <- app_assoc.
Qed.

Lemma step_keeps_success (w : World Store) (e : Event) :
  (∀ payload, e ≠ InsertNotification payload) →
  success (ui (step insertRow selectSignedDocument selectTemplate
                 storagePublicUrl route w e)) = success (ui w).
Proof.
  intros Hne. destruct e; simpl; try done.
  - unfold loadTemplate. repeat case_match; done.
  - unfold handleFieldClick. repeat case_match; done.
  - unfold clickActionButton.
    destruct (actionButton route (ui w)) as [[[]|[]]|]; try done.
    + simpl. unfold handleNextField. repeat case_match; done.
    + apply handleSave_keeps.
  - by destruct (Hne payload).
Qed.

Lemma onInsert_success (payload : InsertPayload) (w : World Store) :
  success (ui (onInsert selectSignedDocument route payload w)) = true →
  success (ui w) = true
  ∨ matchingNotification route (InsertNotification payload).
Proof.
  unfold onInsert. destruct (strictEq _ _) eqn:E; [|by left].
  intros _. right. by apply strictEq_true.
Qed.

Lemma run_success (events : list Event) (w : World Store) :
  success (ui (run insertRow selectSignedDocument selectTemplate
                 storagePublicUrl route w events)) = true →
  success (ui w) = true ∨ ∃ e, In e events ∧ matchingNotification route e.
Proof.
  unfold run. revert w. induction events as [|e events IH]; intros w; simpl.
  { by left. }
  intros Hrun. destruct (IH _ Hrun) as [Hstep|(e' & Hin & Hm)].
  - destruct e; try (left; by rewrite <- Hstep, step_keeps_success).
    destruct (onInsert_success payload w Hstep) as [?|Hm]; [by left|].
    right. exists (InsertNotification payload). split; [by left|done].
  - right. exists e'. split; [by right|done].
Qed.

(** C10. [handleSave] never changes [success], whatever the data store
    answers. On a device that is not mobile, when validation passes, the
    insert returns a row with an id and the record is fetched, it stores
    the record in [signedDocument], sends the insert and the select, and
    leaves [success] and [mobileSignatureComplete] as they were. No event
    other than an INSERT notification changes [success]; so after any
    sequence of events from a state where [success] is not set, [success]
    is set only if the sequence contains a notification whose
    [template_id] is the route's [templateId]. *)
Theorem success_only_by_notification (w : World Store) :
  let save := handleSave insertRow selectSignedDocument route in
  success (ui (save w)) = success (ui w)
  ∧ (∀ T tid st first rest record,
       template (ui w) = Some T →
       templateId route = Some tid → tid ≠ "" →
       (∀ f, In f (fields T) → required f = true →
             filled (formValues (ui w)) (label f)) →
       isMobile (ui w) = false →
       insertRow (store w)
         {| ins_template_id := Some tid;
            ins_form_values := formValues (ui w);
            ins_user_id := None |}
         = (st, {| ins_data := Some (first :: rest); ins_error := None |}) →
       row_id first ≠ "" →
       selectSignedDocument st (row_id first) = found record →
       signedDocument (ui (save w)) = Some record
       ∧ success (ui (save w)) = success (ui w)
       ∧ mobileSignatureComplete (ui (save w)) = mobileSignatureComplete (ui w)
       ∧ store (save w) = st
       ∧ sent (save w) =
           sent w ++ [InsertSignedDocument
                        {| ins_template_id := Some tid;
                           ins_form_values := formValues (ui w);
                           ins_user_id := None |};
                      SelectSignedDocument (row_id first)])
  ∧ (∀ e, (∀ payload, e ≠ InsertNotification payload) →
          success (ui (step insertRow selectSignedDocument selectTemplate
                         storagePublicUrl route w e)) = success (ui w))
  ∧ (∀ events,
       success (ui w) = false →
       success (ui (run insertRow selectSignedDocument selectTemplate
                      storagePublicUrl route w events)) = true →
       ∃ payload tid,
         In (InsertNotification payload) events
         ∧ new_template_id payload = Some tid
         ∧ templateId route = Some tid).
Proof.
  intros save. split_and!.
  - apply handleSave_keeps.
  - intros T tid st first rest record HT Hr Htid Hfilled Hmob Hins Hid Hsel.
    assert (Hval : validateForm (ui w) = (true, ui w)).
    { rewrite (validateForm_result (ui w) T HT).
      apply missingFields_nil in Hfilled. by rewrite Hfilled. }
    subst save. unfold handleSave, getSignedDocument.
    rewrite HT, Hr, Hval. simpl.
    destruct tid as [|c tid]; [done|]. simpl.
    rewrite Hins. simpl.
    destruct (row_id first) as [|c' rid] eqn:Hrid; [done|]. simpl.
    rewrite Hsel, Hmob. simpl. split_and!; try done.
    by rewrite <- app_assoc.
  - apply step_keeps_success.
  - intros events Hnot Hrun.
    destruct (run_success events w Hrun) as [?|(e & Hin & Hm)]; [congruence|].
    destruct e; try done. destruct Hm as (tid & ? & ?). eauto.
Qed.

End ComponentProofs.

(** ** The scenario, run *)

Section ScenarioRuns.

Import Scenario.

(** Scenario A: "Jane Doe" lands at y = 792 - 100 and the picture, 81
    pixels high, at y = 792 - 300 - 40.5 with half its native size. *)
Example scenario_A_overlays :
  match overlayFields library complete (fields agreement) (letter, []) with
  | Ok (d, console) =>
      List.map (fun p => List.map (fun op => (this (opX op), this (opY op)))
                           (content p)) (getPages d)
        = [[(50 # 1, 692 # 1); (50 # 1, 903 # 2)]]
      ∧ console = []
  | Throw _ => False
  end.
Proof. vm_compute. split; reflexivity. Qed.

(** Scenario B: an empty name is reported and nothing is sent. *)
Example scenario_B_rejected :
  let w := handleSave insertRow selectSignedDocument desktop (world [] blankName) in
  error (ui w) = Some "Please complete all required fields: Name"
  ∧ sent w = [] ∧ store w = [].
Proof. vm_compute. repeat split; reflexivity. Qed.

(** Scenario C: the echo of the device's own insert is what sets
    [success]. *)
Example scenario_C_echo :
  let w1 := handleSave insertRow selectSignedDocument desktop (world [] complete) in
  let w2 := onInsert selectSignedDocument desktop
              {| new_id := "doc-i"; new_template_id := Some "t1" |} w1 in
  success (ui w1) = false
  ∧ option_map doc_id (signedDocument (ui w1)) = Some "doc-i"
  ∧ success (ui w2) = true.
Proof. vm_compute. repeat split; reflexivity. Qed.

Lemma validateForm_required_fields_witness :
  template (session blankName) = Some agreement
  ∧ (validateForm (session blankName)).1 = false.
Proof.
  split; [reflexivity|].
  destruct (validateForm_required_fields (session blankName) agreement eq_refl)
    as (_ & Hfalse & _).
  apply Hfalse. exists nameField. split; [left; reflexivity|].
  split; [reflexivity|]. right. exists "". split; reflexivity.
Defined.

Lemma flatten_draw_coordinates_witness :
  ∃ pdfDoc' console' page',
    overlayFields library complete (fields agreement) (letter, [])
      = Ok (pdfDoc', console')
    ∧ getPages pdfDoc' !! 0%nat = Some page'
    ∧ List.map (fun op => (this (opX op), this (opY op))) (content page')
      = [(50 # 1, 692 # 1); (50 # 1, 903 # 2)].
Proof.
  assert (Hok : textDrawsSucceed library complete (pageHeights letter)
                  (fields agreement)).
  { intros f [<-|[<-|[]]]; reflexivity. }
  destruct (flatten_draw_coordinates library complete (fields agreement)
              letter [] Qcminus_zero Hok) as ((d & c & Hrun & _ & Hpages) & _).
  eexists d, c, _. split; [exact Hrun|].
  split; [exact (Hpages 0%nat _ eq_refl)|]. vm_compute. reflexivity.
Defined.

Lemma handleSave_rejects_before_insert_witness :
  template (ui (world [] blankName)) = Some agreement
  ∧ sent (handleSave insertRow selectSignedDocument desktop (world [] blankName))
    = []
  ∧ store (handleSave insertRow selectSignedDocument desktop (world [] blankName))
    = [].
Proof.
  split; [reflexivity|].
  assert (Hex : ∃ f, In f (fields agreement) ∧ required f = true
                     ∧ blank (formValues (ui (world [] blankName))) (label f)).
  { exists nameField. split; [left; reflexivity|]. split; [reflexivity|].
    right. exists "". split; reflexivity. }
  destruct (handleSave_rejects_before_insert Store insertRow selectSignedDocument
              desktop (world [] blankName) agreement eq_refl Hex)
    as (Hstore & Hsent & _).
  split; [exact Hsent|exact Hstore].
Defined.


Lemma flatten_skips_unresolved_page_witness :
  (Z.of_nat (length (getPages letter)) < pageNumber (position strayField))%Z
  ∧ flattenLoaded library letter
      (withFields ([nameField] ++ strayField :: [sigField]) (signed complete))
    = flattenLoaded library letter
        (withFields ([nameField] ++ [sigField]) (signed complete)).
Proof.
  assert (Hout : (Z.of_nat (length (getPages letter))
                  < pageNumber (position strayField))%Z) by (simpl; lia).
  split; [exact Hout|].
  destruct (flatten_skips_unresolved_page library (signed complete)
              [nameField] [sigField] strayField letter [] (or_intror Hout))
    as (_ & _ & _ & Hflat).
  exact Hflat.
Defined.

Lemma handleNextField_next_in_order_witness :
  template (ui (world [] ∅)) = Some agreement
  ∧ clickActionButton insertRow selectSignedDocument desktop (world [] ∅)
    = world [] ∅
  ∧ currentFieldIndex (handleNextField (ui (world [] complete))) = 1%Z.
Proof.
  split; [reflexivity|]. split.
  - destruct (handleNextField_next_in_order Store insertRow selectSignedDocument
                desktop (world [] ∅) agreement eq_refl)
      as (_ & _ & Hblocked & _).
    apply (Hblocked nameField); [reflexivity|simpl; lia|left; reflexivity].
  - destruct (handleNextField_next_in_order Store insertRow selectSignedDocument
                desktop (world [] complete) agreement eq_refl)
      as (Hadv & _).
    apply Hadv. simpl. lia.
Defined.

Lemma onInsert_matching_template_witness :
  selectSignedDocument (store (world [remote] blankName)) (new_id notification)
    = found remote
  ∧ success (ui (onInsert selectSignedDocument desktop notification
                   (world [remote] blankName))) = true
  ∧ formValues (ui (onInsert selectSignedDocument desktop notification
                      (world [remote] blankName))) !! "Sig" = Some payload.
Proof.
  split; [reflexivity|].
  destruct (onInsert_matching_template Store selectSignedDocument desktop
              notification (world [remote] blankName)) as (_ & Hmatch).
  destruct (Hmatch "t1" remote eq_refl eq_refl eq_refl)
    as (_ & _ & _ & _ & Hkeys & _ & Hsucc & _).
  split; [exact Hsucc|]. apply Hkeys. reflexivity.
Defined.

Lemma onInsert_accepts_every_matching_event_witness :
  let w := withUi (setSuccess true) (world [remote] blankName) in
  success (ui w) = true
  ∧ signedDocument
      (ui (onInsert selectSignedDocument desktop notification
             (onInsert selectSignedDocument desktop notification w)))
    = Some remote
  ∧ sent (onInsert selectSignedDocument desktop notification
            (onInsert selectSignedDocument desktop notification w))
    = [SelectSignedDocument "doc-i"; SelectSignedDocument "doc-i"].
Proof.
  intros w. split; [reflexivity|].
  destruct (onInsert_accepts_every_matching_event Store selectSignedDocument
              desktop notification notification remote remote "t1" w
              eq_refl eq_refl eq_refl eq_refl eq_refl)
    as (_ & _ & _ & _ & _ & Hdoc & _ & _ & Hsent & _).
  split; [exact Hdoc|exact Hsent].
Defined.

(** C9 as worded does not hold: for a text field with no value the loop
    still calls [drawText], with the empty string; the page has one more
    draw and the saved bytes differ. And a value that [drawText] refuses is
    not drawn: the turn throws. *)
Lemma flatten_text_field_empty_value_drawn :
  field_type nameField = text
  ∧ (∅ : FormValues) !! label nameField = None
  ∧ getPages letter !! 0%nat = Some {| getHeight := Q2Qc 792; content := [] |}
  ∧ (∃ pdfDoc',
       overlayField library ∅ (letter, []) nameField = Ok (pdfDoc', [])
       ∧ getPages pdfDoc' !! 0%nat
         = Some {| getHeight := Q2Qc 792;
                   content := [DrawText "" (Q2Qc 50) (Q2Qc 792 - Q2Qc 100)%Qc
                                 12 Helvetica
                                 (rgb (Q2Qc 0) (Q2Qc 0) (Q2Qc 0))] |}
       ∧ getPages pdfDoc' ≠ getPages letter
       ∧ Scenario.save pdfDoc' ≠ Scenario.save letter)
  ∧ overlayField library garbled (letter, []) nameField
    = Throw "WinAnsi cannot encode".
Proof.
  split; [reflexivity|]. split; [reflexivity|]. split; [reflexivity|].
  split; [|reflexivity].
  eexists. split; [reflexivity|]. split; [reflexivity|].
  split; discriminate.
Qed.

Lemma flatten_text_field_witness :
  arrayGet (getPages letter) (pageNumber (position nameField) - 1)
    = Some {| getHeight := Q2Qc 792; content := [] |}
  ∧ (∃ pdfDoc',
       overlayField library complete (letter, []) nameField = Ok (pdfDoc', [])
       ∧ getPages pdfDoc' !! 0%nat
         = Some {| getHeight := Q2Qc 792;
                   content := [DrawText "Jane Doe" (Q2Qc 50)
                                 (Q2Qc 792 - Q2Qc 100)%Qc 12 Helvetica
                                 (rgb (Q2Qc 0) (Q2Qc 0) (Q2Qc 0))] |})
  ∧ overlayFields library garbled [nameField; sigField] (letter, [])
    = Throw "WinAnsi cannot encode".
Proof.
  split; [reflexivity|]. split.
  - destruct (flatten_text_field library complete nameField [] letter []
                {| getHeight := Q2Qc 792; content := [] |}
                (or_introl eq_refl) eq_refl) as (drawn & Hcall).
    cbv zeta in Hcall. destruct Hcall as (Hliteral & _ & Hcall).
    rewrite (Hliteral "Jane Doe" eq_refl) in Hcall.
    destruct Hcall as (d & Hrun & Hpage & _).
    exists d. split; [exact Hrun|exact Hpage].
  - destruct (flatten_text_field library garbled nameField [sigField] letter []
                {| getHeight := Q2Qc 792; content := [] |}
                (or_introl eq_refl) eq_refl) as (drawn & Hcall).
    cbv zeta in Hcall. destruct Hcall as (Hliteral & _ & Hcall).
    rewrite (Hliteral _ eq_refl) in Hcall.
    destruct Hcall as (_ & Hloop). exact Hloop.
Defined.

Lemma success_only_by_notification_witness :
  let w := world [] complete in
  let w' := handleSave insertRow selectSignedDocument desktop w in
  isMobile (ui w) = false
  ∧ option_map doc_id (signedDocument (ui w')) = Some "doc-i"
  ∧ success (ui w') = false.
Proof.
  intros w w'. split; [reflexivity|].
  destruct (success_only_by_notification Store insertRow selectSignedDocument
              selectTemplate storagePublicUrl desktop w) as (_ & Hsave & _).
  assert (Hne : "t1" ≠ "") by discriminate.
  assert (Hid : "doc-i" ≠ "") by discriminate.
  assert (Hfilled : ∀ f, In f (fields agreement) → required f = true →
                         filled (formValues (ui w)) (label f)).
  { intros f [<-|[<-|[]]] _.
    - exists "Jane Doe". split; [reflexivity|discriminate].
    - exists payload. split; [reflexivity|discriminate]. }
  destruct (Hsave agreement "t1" (fst (insertRow [] {|
              ins_template_id := Some "t1";
              ins_form_values := complete;
              ins_user_id := None |}))
              {| row_id := "doc-i" |} []
              {| doc_id := "doc-i"; template_id := "t1";
                 form_values := complete;
                 created_at := "2025-01-01T00:00:00Z";
                 doc_template := agreement |}
              eq_refl eq_refl Hne Hfilled eq_refl eq_refl Hid eq_refl)
    as (Hdoc & Hsucc & _).
  split.
  - fold w' in Hdoc. rewrite Hdoc. reflexivity.
  - fold w' in Hsucc. rewrite Hsucc. reflexivity.
Defined.

End ScenarioRuns.

(** * Further properties of the component *)

(** ** Values and validation *)

Lemma onlyWhiteSpace_trimStart (s : string) :
  onlyWhiteSpace (Js.trimStart s) = onlyWhiteSpace s.
Proof.
  induction s as [|c s IH]; simpl; [done|].
  destruct (Js.isWhiteSpace c) eqn:E; simpl; [done|]. by rewrite E.
Qed.

Lemma trimStart_empty (s : string) :
  Js.trimStart s = "" ↔ onlyWhiteSpace s = true.
Proof.
  induction s as [|c s IH]; simpl; [done|].
  destruct (Js.isWhiteSpace c); simpl; [done|]. split; discriminate.
Qed.

Lemma onlyWhiteSpace_rev_app (s acc : string) :
  onlyWhiteSpace (String.rev_app s acc) = onlyWhiteSpace s && onlyWhiteSpace acc.
Proof.
  revert acc. induction s as [|c s IH]; intros acc; simpl; [done|].
  rewrite IH. simpl. destruct (Js.isWhiteSpace c), (onlyWhiteSpace s); done.
Qed.

Lemma rev_app_empty (s acc : string) :
  String.rev_app s acc = "" ↔ s = "" ∧ acc = "".
Proof.
  revert acc. induction s as [|c s IH]; intros acc; simpl.
  - split; [done|by intros []].
  - rewrite IH. split; intros []; discriminate.
Qed.

(** [trim] leaves nothing exactly when there was only white space. *)
Lemma trim_empty_iff (s : string) :
  Js.trim s = "" ↔ onlyWhiteSpace s = true.
Proof.
  unfold Js.trim, Js.trimEnd, String.rev.
  rewrite rev_app_empty, trimStart_empty, onlyWhiteSpace_rev_app.
  simpl. rewrite andb_true_r, onlyWhiteSpace_trimStart. tauto.
Qed.

Lemma blank_characters (V : FormValues) (l : string) :
  blank V l ↔ V !! l = None ∨ ∃ v, V !! l = Some v ∧ onlyWhiteSpace v = true.
Proof.
  unfold blank. split.
  - intros [?|(v & ? & Hv)]; [by left|]. right. exists v.
    by rewrite <- trim_empty_iff.
  - intros [?|(v & ? & Hv)]; [by left|]. right. exists v.
    by rewrite trim_empty_iff.
Qed.

(** X1. With a template loaded, [validateForm] accepts exactly when every
    required field has a value with at least one character that is not
    white space; a value made of spaces, tabs or line breaks only counts
    as missing, like an absent one. *)
Theorem validateForm_white_space_only (s : State) (T : Template) :
  template s = Some T →
  ((validateForm s).1 = true ↔
     ∀ f, In f (fields T) → required f = true →
          ∃ v, formValues s !! label f = Some v ∧ onlyWhiteSpace v = false)
  ∧ (∀ f, In f (missingFields T (formValues s)) ↔
          In f (fields T) ∧ required f = true
          ∧ (formValues s !! label f = None
             ∨ ∃ v, formValues s !! label f = Some v
                    ∧ onlyWhiteSpace v = true)).
Proof.
  intros HT. split.
  - rewrite (validateForm_result s T HT).
    transitivity (missingFields T (formValues s) = []).
    { destruct (missingFields T (formValues s)); simpl; split; done. }
    rewrite missingFields_nil. unfold filled.
    split; intros Hall f Hin Hr; destruct (Hall f Hin Hr) as (v & Hv & Hne);
      exists v; (split; [done|]).
    + destruct (onlyWhiteSpace v) eqn:E; [|done].
      by apply trim_empty_iff in E.
    + intros E. apply trim_empty_iff in E. congruence.
  - intros f. by rewrite missingFields_In, blank_characters.
Qed.

Lemma isMissing_insert_other (V : FormValues) (l v : string) (f : FormField) :
  label f ≠ l → isMissing (<[l := v]> V) f = isMissing V f.
Proof. intros Hne. unfold isMissing. by rewrite lookup_insert_ne. Qed.

Lemma isMissing_insert_filled (V : FormValues) (v : string) (f : FormField) :
  Js.trim v ≠ "" → isMissing (<[label f := v]> V) f = false.
Proof.
  intros Hv. unfold isMissing. rewrite lookup_insert_eq. simpl.
  destruct v as [|c v]; [done|]. simpl.
  rewrite bool_decide_false by done. by destruct (required f).
Qed.

(** X2. Typing a value that is not blank into a field takes every field
    with that label off the list of missing fields and changes nothing
    else on it: the missing fields afterwards are the missing fields from
    before whose label is another one, in the same order. *)
Theorem handleInputChange_clears_missing (s : State) (T : Template)
    (field : FormField) (value : string) :
  Js.trim value ≠ "" →
  missingFields T (formValues (handleInputChange field value s))
  = List.filter (fun f => negb (String.eqb (label f) (label field)))
      (missingFields T (formValues s)).
Proof.
  intros Hv. unfold handleInputChange, missingFields. simpl.
  induction (fields T) as [|f l IH]; [done|].
  cbn [List.filter]. destruct (decide (label f = label field)) as [E|E].
  - assert (isMissing (<[label field := value]> (formValues s)) f = false) as ->
      by (rewrite <- E; by apply isMissing_insert_filled).
    rewrite IH. destruct (isMissing (formValues s) f); [|done].
    cbn [List.filter]. apply String.eqb_eq in E. by rewrite E.
  - rewrite isMissing_insert_other by done. rewrite IH.
    destruct (isMissing (formValues s) f); [|done].
    cbn [List.filter]. apply String.eqb_neq in E. by rewrite E.
Qed.

(** ** Signature capture: what is on screen and where a signature goes *)

Section CaptureProofs.

Variable Store : Type.
Variable insertRow : Store → InsertRow → Store * InsertResponse.
Variable selectSignedDocument : Store → string → SelectResponse.
Variable selectTemplate : Store → option string → TemplateResponse.
Variable storagePublicUrl : Store → string → UrlResponse.
Variable route : Route.

(** [handleSave] leaves the capture state, the device kind and the viewer
    alone. *)
Lemma handleSave_frame (w : World Store) :
  let s' := ui (handleSave insertRow selectSignedDocument route w) in
  showSignaturePad s' = showSignaturePad (ui w)
  ∧ showQRCode s' = showQRCode (ui w)
  ∧ activeField s' = activeField (ui w)
  ∧ isMobile s' = isMobile (ui w)
  ∧ pdfUrl s' = pdfUrl (ui w)
  ∧ currentPage s' = currentPage (ui w).
Proof.
  unfold handleSave, getSignedDocument, validateForm.
  repeat (case_match; simplify_eq/=); done.
Qed.

Lemma loadTemplate_frame (w : World Store) :
  let w' := loadTemplate selectTemplate storagePublicUrl route w in
  store w' = store w
  ∧ showSignaturePad (ui w') = showSignaturePad (ui w)
  ∧ showQRCode (ui w') = showQRCode (ui w)
  ∧ activeField (ui w') = activeField (ui w)
  ∧ isMobile (ui w') = isMobile (ui w)
  ∧ mobileSignatureComplete (ui w') = mobileSignatureComplete (ui w)
  ∧ formValues (ui w') = formValues (ui w)
  ∧ signedDocument (ui w') = signedDocument (ui w)
  ∧ currentFieldIndex (ui w') = currentFieldIndex (ui w)
  ∧ ∀ row, In (InsertSignedDocument row) (sent w') →
           In (InsertSignedDocument row) (sent w).
Proof.
  unfold loadTemplate.
  repeat (case_match; simplify_eq/=); split_and!; try done;
    intros row Hrow;
    repeat (apply in_app_or in Hrow as [Hrow|Hrow];
            [|by destruct Hrow as [?|[]]]);
    done.
Qed.

Lemma onInsert_frame (payload : InsertPayload) (w : World Store) :
  let w' := onInsert selectSignedDocument route payload w in
  store w' = store w
  ∧ showSignaturePad (ui w') = showSignaturePad (ui w)
  ∧ showQRCode (ui w') = showQRCode (ui w)
  ∧ activeField (ui w') = activeField (ui w)
  ∧ isMobile (ui w') = isMobile (ui w)
  ∧ mobileSignatureComplete (ui w') = mobileSignatureComplete (ui w)
  ∧ template (ui w') = template (ui w)
  ∧ currentFieldIndex (ui w') = currentFieldIndex (ui w)
  ∧ ∀ row, In (InsertSignedDocument row) (sent w') →
           In (InsertSignedDocument row) (sent w).
Proof.
  unfold onInsert, getSignedDocument.
  repeat (case_match; simplify_eq/=); split_and!; try done;
    intros row Hrow;
    repeat (apply in_app_or in Hrow as [Hrow|Hrow];
            [|by destruct Hrow as [?|[]]]);
    done.
Qed.

Lemma handleNextField_frame (s : State) :
  showSignaturePad (handleNextField s) = showSignaturePad s
  ∧ showQRCode (handleNextField s) = showQRCode s
  ∧ activeField (handleNextField s) = activeField s
  ∧ isMobile (handleNextField s) = isMobile s
  ∧ mobileSignatureComplete (handleNextField s) = mobileSignatureComplete s
  ∧ formValues (handleNextField s) = formValues s
  ∧ template (handleNextField s) = template s
  ∧ pdfUrl (handleNextField s) = pdfUrl s
  ∧ success (handleNextField s) = success s
  ∧ isSaving (handleNextField s) = isSaving s.
Proof. unfold handleNextField. repeat case_match; done. Qed.

Lemma guardedStep_pad_qr (w : World Store) (e : Event) :
  showSignaturePad (ui w) && showQRCode (ui w) = false →
  let w' := guardedStep insertRow selectSignedDocument selectTemplate
              storagePublicUrl route w e in
  showSignaturePad (ui w') && showQRCode (ui w') = false.
Proof.
  intros Hinv. unfold guardedStep.
  destruct (enabled route (ui w) e) eqn:Hen; [|done].
  destruct e; simpl in *; try done.
  - destruct (loadTemplate_frame w) as (_ & -> & -> & _). done.
  - unfold handleFieldClick. repeat case_match; done.
  - unfold signatureOptionsShown in Hen.
    destruct (showQRCode (ui w)); [|done].
    simpl in Hen. by rewrite !andb_false_r in Hen.
  - unfold signatureOptionsShown in Hen.
    destruct (showSignaturePad (ui w)); [|done].
    simpl in Hen. by rewrite !andb_false_r in Hen.
  - unfold clickActionButton.
    destruct (actionButton route (ui w)) as [[[]|[]]|]; try done.
    + simpl. destruct (handleNextField_frame (ui w)) as (-> & -> & _). done.
    + destruct (handleSave_frame w) as (-> & -> & _). done.
  - destruct (onInsert_frame payload w) as (_ & -> & -> & _). done.
Qed.

(** X3. The signature pad and the QR code are never both up: if they are
    not both up before, they are not both up after any sequence of events
    that can be raised from what is on screen. *)
Theorem pad_and_qr_never_both (w : World Store) (events : list Event) :
  showSignaturePad (ui w) && showQRCode (ui w) = false →
  let w' := guardedRun insertRow selectSignedDocument selectTemplate
              storagePublicUrl route w events in
  showSignaturePad (ui w') && showQRCode (ui w') = false.
Proof.
  unfold guardedRun. revert w.
  induction events as [|e events IH]; intros w Hinv; simpl; [done|].
  apply IH. by apply guardedStep_pad_qr.
Qed.

(** X4. Drawing a signature on the desktop. With the form shown on a
    device that is not mobile, a click on a signature field of the template
    whose label is not empty, then on "Draw Signature", then saving the
    drawing stores the drawing under that field's label and nowhere else,
    closes the pad and the QR code, clears the active field and sends
    nothing. *)
Theorem draw_signature_flow (w : World Store) (T : Template)
    (field : FormField) (signatureData : string) :
  template (ui w) = Some T →
  formShown route (ui w) = true →
  isMobile (ui w) = false →
  In field (fields T) →
  field_type field = signature →
  label field ≠ "" →
  let w' := guardedRun insertRow selectSignedDocument selectTemplate
              storagePublicUrl route w
              [FieldClick field; DrawSignatureClick;
               SignatureSave signatureData] in
  formValues (ui w') = <[label field := signatureData]> (formValues (ui w))
  ∧ formValues (ui w') !! label field = Some signatureData
  ∧ (∀ l, l ≠ label field → formValues (ui w') !! l = formValues (ui w) !! l)
  ∧ showSignaturePad (ui w') = false
  ∧ showQRCode (ui w') = false
  ∧ activeField (ui w') = None
  ∧ currentPage (ui w') = pageNumber (position field)
  ∧ sent w' = sent w
  ∧ store w' = store w.
Proof.
  intros HT Hform Hmob Hin Hty Hlabel w'.
  assert (Hexists : existsb (fun f => bool_decide (field_type f = signature)
                       && bool_decide (Some (label field) = Some (label f)))
                      (fields T) = true).
  { apply existsb_exists. exists field. split; [done|].
    by rewrite !bool_decide_true. }
  assert (Htruthy : Js.truthy (Some (label field)) = true).
  { by destruct (label field). }
  subst w'. destruct w as [st s snt]. destruct s. simpl in *. subst.
  unfold guardedRun, guardedStep, enabled. cbn [fold_left step ui].
  rewrite Hform. cbn [withUi ui].
  unfold handleFieldClick. rewrite bool_decide_true by done.
  unfold formShown in Hform. simpl in Hform.
  apply andb_prop in Hform as [Hurl Hsucc].
  unfold signatureOptionsShown, captureShown, padModalShown, formShown.
  cbn. rewrite Hurl, Hsucc, Hexists. cbn.
  rewrite Hurl, Hsucc, Htruthy. cbn.
  split_and!; try done.
  - apply lookup_insert_eq.
  - intros l Hl. by apply lookup_insert_ne.
Qed.

Lemma run_capture_view (w : World Store) (events : list Event) :
  isMobile (ui w) = true →
  isSigningMode route = true →
  staysNarrow events →
  let w' := run insertRow selectSignedDocument selectTemplate
              storagePublicUrl route w events in
  isMobile (ui w') = true
  ∧ store w' = store w
  ∧ mobileSignatureComplete (ui w') = mobileSignatureComplete (ui w)
  ∧ ∀ row, In (InsertSignedDocument row) (sent w') →
           In (InsertSignedDocument row) (sent w).
Proof.
  intros Hmob Hmode. unfold run. revert w Hmob.
  induction events as [|e events IH]; intros w Hmob Hnarrow; simpl; [done|].
  assert (Hstep :
    let w1 := step insertRow selectSignedDocument selectTemplate
                storagePublicUrl route w e in
    isMobile (ui w1) = true ∧ store w1 = store w
    ∧ mobileSignatureComplete (ui w1) = mobileSignatureComplete (ui w)
    ∧ ∀ row, In (InsertSignedDocument row) (sent w1) →
             In (InsertSignedDocument row) (sent w)).
  { destruct e; simpl; try done.
    - split_and!; try done. apply bool_decide_eq_true, Hnarrow. by left.
    - destruct (loadTemplate_frame w) as (? & _ & _ & _ & Hm & ? & _ & _ & _ & ?).
      rewrite Hm. done.
    - unfold handleFieldClick. repeat case_match; done.
    - unfold clickActionButton, actionButton. rewrite Hmob, Hmode. done.
    - destruct (onInsert_frame payload w) as (? & _ & _ & _ & Hm & ? & _ & _ & ?).
      rewrite Hm. done. }
  destruct Hstep as (Hmob1 & Hst1 & Hdone1 & Hsent1).
  destruct (IH _ Hmob1) as (Hmob2 & Hst2 & Hdone2 & Hsent2).
  { intros width Hw. apply Hnarrow. by right. }
  split_and!; [done|congruence|congruence|].
  intros row Hrow. by apply Hsent1, Hsent2.
Qed.

(** X5. The mobile capture view cannot submit. On a mobile device opened
    in signing mode, whatever happens (signatures saved, notifications,
    reloads, resizes that stay within 768 pixels), no insert of a signed
    document is ever sent, the persisted tables stay as they are and
    [mobileSignatureComplete] keeps its value: the confirmation is never
    reached. *)
Theorem capture_view_never_submits (w : World Store) (events : list Event) :
  isMobile (ui w) = true →
  isSigningMode route = true →
  staysNarrow events →
  let w' := run insertRow selectSignedDocument selectTemplate
              storagePublicUrl route w events in
  (∀ row, In (InsertSignedDocument row) (sent w') →
          In (InsertSignedDocument row) (sent w))
  ∧ store w' = store w
  ∧ mobileSignatureComplete (ui w') = mobileSignatureComplete (ui w).
Proof.
  intros Hmob Hmode Hnarrow w'.
  destruct (run_capture_view w events Hmob Hmode Hnarrow) as (_ & ? & ? & ?).
  done.
Qed.

Lemma guardedStep_capture_view (w : World Store) (e : Event) :
  isMobile (ui w) = true →
  isSigningMode route = true →
  activeField (ui w) = None →
  (∀ innerWidth, e = Resize innerWidth → (innerWidth ≤ 768)%Z) →
  let w' := guardedStep insertRow selectSignedDocument selectTemplate
              storagePublicUrl route w e in
  isMobile (ui w') = true ∧ activeField (ui w') = None.
Proof.
  intros Hmob Hmode Hnone Hnarrow. unfold guardedStep.
  destruct (enabled route (ui w) e) eqn:Hen; [|done].
  destruct e; simpl in *; try done.
  - split; [|done]. by apply bool_decide_eq_true, Hnarrow.
  - destruct (loadTemplate_frame w) as (_ & _ & _ & -> & -> & _). done.
  - unfold formShown in Hen. by rewrite Hmob, Hmode in Hen.
  - unfold clickActionButton, actionButton. rewrite Hmob, Hmode. done.
  - destruct (onInsert_frame payload w) as (_ & _ & _ & -> & -> & _). done.
Qed.

(** X6. In the mobile capture view no field is ever active, so a saved
    signature is filed under the key ["null"]: on a mobile device in
    signing mode with no active field, after any sequence of events raised
    from what is on screen (resizes within 768 pixels), the active field
    is still [null], and saving a signature then writes the key ["null"]
    and leaves every other key of the value map as it is. *)
Theorem capture_view_files_under_null (w : World Store) (events : list Event)
    (signatureData : string) :
  isMobile (ui w) = true →
  isSigningMode route = true →
  activeField (ui w) = None →
  staysNarrow events →
  let w' := guardedRun insertRow selectSignedDocument selectTemplate
              storagePublicUrl route w events in
  activeField (ui w') = None
  ∧ formValues (handleSignatureSave signatureData (ui w'))
    = <["null" := signatureData]> (formValues (ui w'))
  ∧ ∀ l, l ≠ "null" →
         formValues (handleSignatureSave signatureData (ui w')) !! l
         = formValues (ui w') !! l.
Proof.
  intros Hmob Hmode Hnone Hnarrow w'.
  assert (Hinv : isMobile (ui w') = true ∧ activeField (ui w') = None).
  { subst w'. unfold guardedRun. revert w Hmob Hnone.
    induction events as [|e events IH]; intros w Hmob Hnone; simpl; [done|].
    destruct (guardedStep_capture_view w e Hmob Hmode Hnone) as [Hmob1 Hnone1].
    { intros width ->. apply Hnarrow. by left. }
    apply IH; try done. intros width Hw. apply Hnarrow. by right. }
  destruct Hinv as [_ Hactive]. split; [done|].
  unfold handleSignatureSave. simpl. rewrite Hactive. simpl.
  split; [done|]. intros l Hl. by apply lookup_insert_ne.
Qed.

End CaptureProofs.

(** ** Saving, loading and the hand-off callback: outcomes *)

Section OutcomeProofs.

Variable Store : Type.
Variable insertRow : Store → InsertRow → Store * InsertResponse.
Variable selectSignedDocument : Store → string → SelectResponse.
Variable selectTemplate : Store → option string → TemplateResponse.
Variable storagePublicUrl : Store → string → UrlResponse.
Variable route : Route.

Lemma validateForm_true_state (s : State) :
  (validateForm s).1 = true → validateForm s = (true, s).
Proof.
  unfold validateForm. repeat case_match; simpl; done.
Qed.

(** X7. Once validation has passed, [handleSave] sends exactly one insert,
    first, for the row made of the route's template id, the values on
    screen and no user; at most one select follows it. The persisted
    tables are then what the insert left, and [isSaving] is down again
    whatever the data store answered. *)
Theorem handleSave_sends_one_insert (w : World Store) (T : Template) :
  template (ui w) = Some T →
  Js.truthy (templateId route) = true →
  (validateForm (ui w)).1 = true →
  let w' := handleSave insertRow selectSignedDocument route w in
  let row := submittedRow route (ui w) in
  (sent w' = sent w ++ [InsertSignedDocument row]
   ∨ ∃ id, sent w' = sent w ++ [InsertSignedDocument row;
                                SelectSignedDocument id])
  ∧ store w' = (insertRow (store w) row).1
  ∧ isSaving (ui w') = false.
Proof.
  intros HT Hid Hval w' row. subst w'. unfold handleSave, getSignedDocument.
  rewrite HT, Hid, (validateForm_true_state _ Hval). simpl.
  fold (submittedRow route (ui w)). fold row.
  destruct (insertRow (store w) row) as [st response]. simpl.
  repeat case_match; simplify_eq/=; split_and!; try done;
    try (by left); right; eexists; by rewrite <- app_assoc.
Qed.

(** X8. How a save ends. Once validation has passed: if the insert
    returned a row with an id and the select for it succeeded, the error is
    cleared and [signedDocument] is what the select returned; in every
    other case (insert error, no row, no id, select error) the error is
    "Failed to save the document. Please try again." and [signedDocument]
    and [mobileSignatureComplete] keep their values, although the insert
    has been sent. *)
Theorem handleSave_outcome (w : World Store) (T : Template) :
  template (ui w) = Some T →
  Js.truthy (templateId route) = true →
  (validateForm (ui w)).1 = true →
  let w' := handleSave insertRow selectSignedDocument route w in
  let row := submittedRow route (ui w) in
  let answer := insertRow (store w) row in
  (saved answer.2 (selectSignedDocument answer.1) →
     error (ui w') = None
     ∧ ∃ first rest,
         ins_data answer.2 = Some (first :: rest)
         ∧ signedDocument (ui w')
           = sel_data (selectSignedDocument answer.1 (row_id first)))
  ∧ (¬ saved answer.2 (selectSignedDocument answer.1) →
     error (ui w') = Some "Failed to save the document. Please try again."
     ∧ signedDocument (ui w') = signedDocument (ui w)
     ∧ mobileSignatureComplete (ui w') = mobileSignatureComplete (ui w)
     ∧ In (InsertSignedDocument row) (sent w')).
Proof.
  intros HT Hid Hval w' row answer. subst w'.
  unfold handleSave, getSignedDocument.
  rewrite HT, Hid, (validateForm_true_state _ Hval). simpl.
  fold (submittedRow route (ui w)). fold row. fold answer.
  destruct answer as [st response] eqn:Hanswer. simpl.
  unfold saved.
  destruct (ins_error response) as [e|] eqn:Herr.
  { simpl. split; [by intros [? _]|]. intros _. split_and!; try done.
    apply in_app_iff. right. by left. }
  destruct (ins_data response) as [[|first rest]|] eqn:Hdata.
  1, 3: (simpl; split; [by intros (_ & ? & ? & ? & _)|]; intros _;
         split_and!; try done; apply in_app_iff; right; by left).
  destruct (row_id first) as [|c rid] eqn:Hrid.
  { simpl. split.
    - intros (_ & f & r & [= <- <-] & Hne & _). by rewrite Hrid in Hne.
    - intros _. split_and!; try done. apply in_app_iff. right. by left. }
  simpl.
  destruct (sel_error (selectSignedDocument st (String c rid))) as [e|] eqn:Hsel.
  - simpl. split.
    + intros (_ & f & r & [= <- <-] & _ & Hok). rewrite Hrid in Hok. congruence.
    + intros _. split_and!; try done.
      apply in_app_iff. left. apply in_app_iff. right. by left.
  - split.
    + intros _. split.
      * by destruct (isMobile (ui w)).
      * exists first, rest. split; [done|]. rewrite Hrid.
        by destruct (isMobile (ui w)).
    + intros Hnot. destruct Hnot. split; [done|].
      exists first, rest. split; [done|]. rewrite Hrid. done.
Qed.

Lemma step_success_document (w : World Store) (e : Event) :
  (success (ui w) = true → is_Some (signedDocument (ui w))) →
  let w' := step insertRow selectSignedDocument selectTemplate
              storagePublicUrl route w e in
  (success (ui w) = true → success (ui w') = true)
  ∧ (success (ui w') = true → is_Some (signedDocument (ui w'))).
Proof.
  intros Hinv. destruct e; simpl; try done.
  - unfold loadTemplate. repeat case_match; done.
  - unfold handleFieldClick. repeat case_match; done.
  - unfold clickActionButton, actionButton.
    destruct (success (ui w)) eqn:Hs.
    + repeat case_match; simplify_eq/=; try done; by rewrite Hs.
    + split; [done|]. intros Hs'.
      assert (success (ui w) = true) as Habs; [|congruence].
      rewrite <- Hs'. clear Hs'.
      repeat case_match; simplify_eq/=; try done.
      * unfold handleNextField. repeat case_match; done.
      * symmetry. unfold handleSave, getSignedDocument, validateForm.
        repeat (case_match; simplify_eq/=); done.
  - unfold onInsert, getSignedDocument.
    repeat (case_match; simplify_eq/=); try done.
Qed.

(** X9. Success is for good and never without a document: over any
    sequence of events, [success] once set stays set, and whenever it is
    set there is a signed document to download, provided that held at the
    start (as it does in the initial state). *)
Theorem success_is_permanent_with_document (w : World Store)
    (events : list Event) :
  (success (ui w) = true → is_Some (signedDocument (ui w))) →
  let w' := run insertRow selectSignedDocument selectTemplate
              storagePublicUrl route w events in
  (success (ui w) = true → success (ui w') = true)
  ∧ (success (ui w') = true → is_Some (signedDocument (ui w'))).
Proof.
  unfold run. revert w.
  induction events as [|e events IH]; intros w Hinv; simpl; [done|].
  destruct (step_success_document w e Hinv) as [Hmono Hinv1].
  destruct (IH _ Hinv1) as [Hmono2 Hinv2]. split; [|done].
  intros Hs. by apply Hmono2, Hmono.
Qed.

(** X10. A notification for the route's template whose record cannot be
    fetched (the select fails, or returns no record) changes nothing on
    screen: one select has been sent, the state and the persisted tables
    are as before; in particular [success] is not set. *)
Theorem onInsert_fetch_failure (payload : InsertPayload) (tid : string)
    (w : World Store) :
  new_template_id payload = Some tid →
  templateId route = Some tid →
  (is_Some (sel_error (selectSignedDocument (store w) (new_id payload)))
   ∨ sel_data (selectSignedDocument (store w) (new_id payload)) = None) →
  let w' := onInsert selectSignedDocument route payload w in
  ui w' = ui w
  ∧ store w' = store w
  ∧ sent w' = sent w ++ [SelectSignedDocument (new_id payload)].
Proof.
  intros Hp Hr Hfail w'. subst w'. unfold onInsert, getSignedDocument.
  rewrite Hp, Hr. simpl. rewrite bool_decide_true by done.
  destruct (sel_error _) as [e|] eqn:Herr; [done|].
  destruct Hfail as [[e He]|Hnone]; [done|]. by rewrite Hnone.
Qed.

Lemma merged_twice (record : SignedDocument) (s : State) :
  merged record (merged record s) = merged record s.
Proof.
  unfold merged, setSuccess, setFormValues, setSignedDocument. simpl.
  f_equal. by rewrite (assoc_L (∪)), (idemp_L (∪)).
Qed.

(** X11. Delivering the same notification twice is harmless: when the
    record is returned both times, the state after the second delivery is
    the state after the first; only a second select has been sent. *)
Theorem onInsert_duplicate_delivery (payload : InsertPayload)
    (record : SignedDocument) (tid : string) (w : World Store) :
  new_template_id payload = Some tid →
  templateId route = Some tid →
  selectSignedDocument (store w) (new_id payload) = found record →
  let w1 := onInsert selectSignedDocument route payload w in
  let w2 := onInsert selectSignedDocument route payload w1 in
  ui w2 = ui w1
  ∧ store w2 = store w
  ∧ sent w2 = sent w1 ++ [SelectSignedDocument (new_id payload)].
Proof.
  intros Hp Hr Hsel w1 w2.
  assert (E1 : w1 = {| store := store w; ui := merged record (ui w);
                       sent := sent w ++ [SelectSignedDocument (new_id payload)] |})
    by (by apply onInsert_found with tid).
  subst w2. rewrite E1. rewrite (onInsert_found _ _ _ payload record tid);
    try done.
  simpl. by rewrite merged_twice.
Qed.

(** X12. [loadTemplate] by outcome. It never touches the persisted tables
    and never clears an error. If the template cannot be read, the error
    is "Failed to load document. Please try again." and template and URL
    stay as they were. If the template is read but its URL is refused, the
    template is replaced all the same, the URL is not, and the same error
    is set. If both succeed, template and URL are set and the error is left
    as it was, also when it is the message of an earlier failure. *)
Theorem loadTemplate_outcomes (w : World Store) :
  let w' := loadTemplate selectTemplate storagePublicUrl route w in
  let answer := selectTemplate (store w) (templateId route) in
  store w' = store w
  ∧ (is_Some (error (ui w)) → is_Some (error (ui w')))
  ∧ (is_Some (tr_error answer) ∨ tr_data answer = None →
     error (ui w') = Some "Failed to load document. Please try again."
     ∧ template (ui w') = template (ui w)
     ∧ pdfUrl (ui w') = pdfUrl (ui w)
     ∧ sent w' = sent w ++ [SelectTemplate (templateId route)])
  ∧ (∀ T, tr_error answer = None → tr_data answer = Some T →
       let url := storagePublicUrl (store w) (file_path T) in
       template (ui w') = Some T
       ∧ sent w' = sent w ++ [SelectTemplate (templateId route);
                              GetPublicUrl (file_path T)]
       ∧ (is_Some (url_error url) →
          pdfUrl (ui w') = pdfUrl (ui w)
          ∧ error (ui w')
            = Some "Failed to load document. Please try again.")
       ∧ (url_error url = None →
          pdfUrl (ui w') = Some (publicUrl url)
          ∧ error (ui w') = error (ui w))).
Proof.
  intros w' answer. subst w'. unfold loadTemplate. fold answer.
  destruct (tr_error answer) as [e|] eqn:Herr.
  { simpl. split_and!; try done. }
  destruct (tr_data answer) as [T|] eqn:Hdata.
  - destruct (url_error (storagePublicUrl (store w) (file_path T)))
      as [e|] eqn:Hurl; simpl.
    + split_and!; try done.
      * by intros [[??]|?].
      * intros T' _ [= <-]. rewrite Hurl. simpl.
        split_and!; try done; try (by rewrite <- app_assoc); by intros [??].
    + split_and!; try done.
      * by intros [[??]|?].
      * intros T' _ [= <-]. rewrite Hurl. simpl.
        split_and!; try done; try (by rewrite <- app_assoc); by intros [??].
  - simpl. split_and!; try done.
Qed.

Lemma step_keeps_error (w : World Store) (e : Event) :
  e ≠ ActionClick →
  is_Some (error (ui w)) →
  is_Some (error (ui (step insertRow selectSignedDocument selectTemplate
                       storagePublicUrl route w e))).
Proof.
  intros Hne Herr. destruct e; simpl; try done.
  - unfold loadTemplate. repeat case_match; simpl; try done; by eexists.
  - unfold handleFieldClick. repeat case_match; done.
  - unfold onInsert, getSignedDocument.
    repeat (case_match; simplify_eq/=); try done.
Qed.

(** X13. An error message stays on screen until the form is submitted
    again: over any sequence of events without a click on the button at
    the foot of the form (typing, signing, reloading, notifications), an
    error that is set remains set. *)
Theorem error_stays_until_submit (w : World Store) (events : list Event) :
  noActionClick events →
  is_Some (error (ui w)) →
  is_Some (error (ui (run insertRow selectSignedDocument selectTemplate
                        storagePublicUrl route w events))).
Proof.
  unfold run, noActionClick. revert w.
  induction events as [|e events IH]; intros w Hno Herr; simpl; [done|].
  apply IH.
  - intros Hin. apply Hno. by right.
  - apply step_keeps_error; [|done]. intros ->. apply Hno. by left.
Qed.

End OutcomeProofs.

(** ** Stepping through the fields *)

Section SteppingProofs.

Variable Store : Type.
Variable insertRow : Store → InsertRow → Store * InsertResponse.
Variable selectSignedDocument : Store → string → SelectResponse.
Variable selectTemplate : Store → option string → TemplateResponse.
Variable storagePublicUrl : Store → string → UrlResponse.
Variable route : Route.

Lemma formShown_frame (s s' : State) :
  isMobile s' = isMobile s → template s' = template s →
  pdfUrl s' = pdfUrl s → success s' = success s →
  formShown route s' = formShown route s.
Proof. unfold formShown. by intros -> -> -> ->. Qed.

Lemma formShown_parts (s : State) :
  formShown route s = true →
  isMobile s && isSigningMode route = false
  ∧ Js.truthy (pdfUrl s) = true ∧ success s = false.
Proof.
  unfold formShown. intros H.
  apply andb_prop in H as [H Hs]. apply andb_prop in H as [H Hu].
  apply andb_prop in H as [Hm _].
  split_and!; [by destruct (_ && _)|done|by destruct (success s)].
Qed.

(** One click on "Next Field" when it is enabled. *)
Lemma click_advances (w : World Store) (T : Template) (current : FormField) :
  template (ui w) = Some T →
  formShown route (ui w) = true →
  (currentFieldIndex (ui w) < Z.of_nat (length (fields T)) - 1)%Z →
  arrayGet (fields T) (currentFieldIndex (ui w)) = Some current →
  Js.truthy (formValues (ui w) !! label current) = true →
  clickActionButton insertRow selectSignedDocument route w
  = withUi handleNextField w
  ∧ currentFieldIndex (handleNextField (ui w)) = (currentFieldIndex (ui w) + 1)%Z.
Proof.
  intros HT Hform Hlt Hcur Hval.
  destruct (formShown_parts _ Hform) as (Hview & Hurl & Hsucc). split.
  - unfold clickActionButton, actionButton.
    rewrite Hview, HT, Hurl, Hsucc, Hcur, Hval. simpl.
    by rewrite bool_decide_true.
  - unfold handleNextField. rewrite HT, bool_decide_true by done.
    repeat case_match; done.
Qed.

Lemma next_clicks (w : World Store) (T : Template) (k : nat) :
  template (ui w) = Some T →
  formShown route (ui w) = true →
  currentFieldIndex (ui w) = 0%Z →
  (∀ (i : nat) f, (i < length (fields T) - 1)%nat → fields T !! i = Some f →
                  Js.truthy (formValues (ui w) !! label f) = true) →
  (k ≤ length (fields T) - 1)%nat →
  let w' := run insertRow selectSignedDocument selectTemplate
              storagePublicUrl route w (replicate k ActionClick) in
  currentFieldIndex (ui w') = Z.of_nat k
  ∧ template (ui w') = Some T
  ∧ formValues (ui w') = formValues (ui w)
  ∧ pdfUrl (ui w') = pdfUrl (ui w)
  ∧ success (ui w') = success (ui w)
  ∧ isMobile (ui w') = isMobile (ui w)
  ∧ isSaving (ui w') = isSaving (ui w)
  ∧ store w' = store w
  ∧ sent w' = sent w.
Proof.
  intros HT Hform Hzero Hvals. induction k as [|k IH]; intros Hk; cbv zeta.
  { simpl. by rewrite Hzero. }
  cbv zeta in IH. rewrite replicate_S_end. unfold run in *. rewrite fold_left_app. simpl.
  destruct IH as (Hidx & HT' & Hfv & Hurl & Hsucc & Hmob & Hsav & Hst & Hsent);
    [lia|].
  set (wk := fold_left _ (replicate k ActionClick) w) in *.
  assert (Hcur : ∃ current, fields T !! k = Some current).
  { apply lookup_lt_is_Some. lia. }
  destruct Hcur as [current Hcur].
  destruct (click_advances wk T current) as [Hclick Hnext]; try done.
  - rewrite <- Hform. apply formShown_frame; congruence.
  - rewrite Hidx. lia.
  - apply arrayGet_Some. rewrite Hidx, Nat2Z.id. split; [lia|done].
  - rewrite Hfv. apply (Hvals k); [lia|done].
  - rewrite Hclick. simpl.
    destruct (handleNextField_frame (ui wk))
      as (_ & _ & _ & -> & _ & -> & -> & -> & -> & ->).
    rewrite Hnext, Hidx. split_and!; try done. lia.
Qed.

(** X14. Walking to the Submit button. With the form shown, the first
    field current and a value in every field but possibly the last, one
    click on "Next Field" per field but the last brings the index to the
    last field without changing a value or sending anything, and the
    button at the foot is then "Submit Document", enabled unless a save is
    running. *)
Theorem next_clicks_reach_submit (w : World Store) (T : Template) :
  template (ui w) = Some T →
  formShown route (ui w) = true →
  currentFieldIndex (ui w) = 0%Z →
  (∀ (i : nat) f, (i < length (fields T) - 1)%nat → fields T !! i = Some f →
                  Js.truthy (formValues (ui w) !! label f) = true) →
  let w' := run insertRow selectSignedDocument selectTemplate
              storagePublicUrl route w
              (replicate (length (fields T) - 1) ActionClick) in
  currentFieldIndex (ui w') = Z.of_nat (length (fields T) - 1)
  ∧ formValues (ui w') = formValues (ui w)
  ∧ sent w' = sent w
  ∧ store w' = store w
  ∧ actionButton route (ui w') = Some (SubmitButton (isSaving (ui w))).
Proof.
  intros HT Hform Hzero Hvals w'.
  destruct (next_clicks w T (length (fields T) - 1) HT Hform Hzero Hvals)
    as (Hidx & HT' & Hfv & Hurl & Hsucc & Hmob & Hsav & Hst & Hsent); [lia|].
  fold w' in Hidx, HT', Hfv, Hurl, Hsucc, Hmob, Hsav, Hst, Hsent.
  split_and!; try done.
  destruct (formShown_parts _ Hform) as (Hview & Hu & Hs).
  unfold actionButton. rewrite Hmob, Hview, HT', Hurl, Hu, Hsucc, Hs, Hidx, Hsav.
  simpl. rewrite bool_decide_false by lia. by rewrite orb_false_r.
Qed.

End SteppingProofs.

(** ** Flattening: page contents, order of the fields, failures *)

Lemma split_comma_free (s : string) :
  commaFree s = true → Js.split "," s = [s].
Proof.
  induction s as [|c s IH]; simpl; [done|].
  destruct (Ascii.eqb c ","); simpl; [done|]. intros Hs. by rewrite IH.
Qed.

Lemma split_prefix (prefix rest : string) :
  commaFree prefix = true →
  Js.split "," (prefix +:+ String "," rest) = prefix :: Js.split "," rest.
Proof.
  induction prefix as [|c prefix IH]; simpl; [done|].
  destruct (Ascii.eqb c ","); simpl; [done|]. intros Hs. by rewrite IH.
Qed.

Section PageProofs.

Variable lib : Library.

(** X15. Only the text between the first and the second comma of a
    signature value is decoded. The header before the first comma is not
    looked at, whatever it says, and anything after a second comma is
    dropped; a value without any comma is decoded from the text
    ["undefined"]. *)
Theorem decodeSignature_between_commas (header data : string) :
  commaFree header = true →
  commaFree data = true →
  decodeSignature lib (header +:+ String "," data)
    = (binary ← atob lib data; embedPng lib (charCodes binary))
  ∧ (∀ rest,
       decodeSignature lib (header +:+ String "," (data +:+ String "," rest))
       = (binary ← atob lib data; embedPng lib (charCodes binary)))
  ∧ decodeSignature lib data
    = (binary ← atob lib "undefined"; embedPng lib (charCodes binary)).
Proof.
  intros Hheader Hdata. unfold decodeSignature. split_and!.
  - by rewrite split_prefix, split_comma_free.
  - intros rest. by rewrite !split_prefix.
  - by rewrite split_comma_free.
Qed.

Lemma overlayField_values (values values' : FormValues) (st : Flat)
    (field : FormField) :
  values !! label field = values' !! label field →
  overlayField lib values st field = overlayField lib values' st field.
Proof. intros E. unfold overlayField. by rewrite E. Qed.

(** X16. Flattening reads the value map at the labels of the template's
    fields and nowhere else: two value maps that agree on those labels
    give the same document and the same console, or the same error,
    whatever else they hold. *)
Theorem flatten_reads_field_labels (values values' : FormValues)
    (l : list FormField) (st : Flat) :
  (∀ field, In field l → values !! label field = values' !! label field) →
  overlayFields lib values l st = overlayFields lib values' l st.
Proof.
  unfold overlayFields. revert st.
  induction l as [|f l IH]; intros st Hagree; [done|].
  rewrite !forOf_cons.
  rewrite (overlayField_values values values') by (apply Hagree; by left).
  destruct (overlayField lib values' st f) as [st1|e]; [|done].
  unfold mbind, Result_bind. apply IH. intros field Hin. apply Hagree. by right.
Qed.

(** The loop returns exactly when no [drawText] of the list throws. *)
Lemma overlayFields_returns values l pdfDoc console :
  (∃ st, overlayFields lib values l (pdfDoc, console) = Ok st)
  ↔ textDrawsSucceed lib values (pageHeights pdfDoc) l.
Proof.
  split.
  - intros [st Hrun] field Hin.
    destruct (fieldThrows lib values (pageHeights pdfDoc) field) as [e|] eqn:Hf;
      [|done].
    apply in_split in Hin as (l1 & l2 & ->).
    exfalso.
    revert pdfDoc console Hrun Hf. induction l1 as [|g l1 IH];
      intros pdfDoc console Hrun Hf.
    + assert (Hthrow : overlayFields lib values ([] ++ field :: l2)
                         (pdfDoc, console) = Throw e).
      { apply overlayFields_throw. exists [], field, l2.
        split; [done|]. split; [by intros ? []|done]. }
      congruence.
    + unfold overlayFields in Hrun.
      rewrite <- app_comm_cons, forOf_cons in Hrun.
      pose proof (overlayField_summary lib values pdfDoc console g) as Hturn.
      destruct (fieldThrows lib values (pageHeights pdfDoc) g) as [e0|].
      * by rewrite Hturn in Hrun.
      * destruct Hturn as (d1 & Hg & Hheights & _). rewrite Hg in Hrun.
        unfold mbind, Result_bind in Hrun.
        apply (IH d1 _ Hrun). by rewrite Hheights.
  - intros Hok.
    destruct (overlayFields_succeed lib values l pdfDoc console Hok)
      as (d & Hrun & _). eauto.
Qed.

Lemma textDrawsSucceed_perm values heights l l' :
  l ≡ₚ l' →
  textDrawsSucceed lib values heights l →
  textDrawsSucceed lib values heights l'.
Proof.
  intros Hperm Hok field Hin. apply Hok.
  apply (Permutation_in field (Permutation_sym Hperm) Hin).
Qed.

(** X18. The order of the fields in the template changes the paint order
    and which error is thrown, and nothing else. The loop over a reordered
    field list throws if and only if the loop over the list does; and when
    no [drawText] throws, both return and give, page by page, the same
    height and the same draws up to their order, and the same console
    lines up to their order. *)
Theorem flatten_field_order (values : FormValues) (l l' : list FormField)
    (pdfDoc : PDFDocument) (console : list ConsoleLine) :
  l ≡ₚ l' →
  ((∃ e, overlayFields lib values l (pdfDoc, console) = Throw e)
   ↔ (∃ e', overlayFields lib values l' (pdfDoc, console) = Throw e'))
  ∧ (textDrawsSucceed lib values (pageHeights pdfDoc) l →
     ∃ d1 c1 d2 c2,
       overlayFields lib values l (pdfDoc, console) = Ok (d1, c1)
       ∧ overlayFields lib values l' (pdfDoc, console) = Ok (d2, c2)
       ∧ c1 ≡ₚ c2
       ∧ ∀ (i : nat) (page : PDFPage),
           getPages pdfDoc !! i = Some page →
           ∃ p1 p2,
             getPages d1 !! i = Some p1
             ∧ getPages d2 !! i = Some p2
             ∧ getHeight p1 = getHeight p2
             ∧ content p1 ≡ₚ content p2).
Proof.
  intros Hperm.
  assert (Hthrows : ∀ k k', k ≡ₚ k' →
            (∃ e, overlayFields lib values k (pdfDoc, console) = Throw e) →
            ∃ e', overlayFields lib values k' (pdfDoc, console) = Throw e').
  { intros k k' Hk [e Hrun].
    destruct (overlayFields lib values k' (pdfDoc, console)) as [st|e'] eqn:Hrun';
      [|by exists e'].
    assert (Hok : textDrawsSucceed lib values (pageHeights pdfDoc) k').
    { apply (overlayFields_returns values k' pdfDoc console). by exists st. }
    apply (textDrawsSucceed_perm _ _ _ _ (Permutation_sym Hk)) in Hok.
    apply (overlayFields_returns values k pdfDoc console) in Hok as [st' Hst].
    congruence. }
  split.
  - split; [by apply Hthrows|by apply Hthrows, Permutation_sym].
  - intros Hok.
    destruct (overlayFields_succeed lib values l pdfDoc console Hok)
      as (d1 & Hrun1 & _ & Hpages1).
    destruct (overlayFields_succeed lib values l' pdfDoc console
                (textDrawsSucceed_perm _ _ _ _ Hperm Hok))
      as (d2 & Hrun2 & _ & Hpages2).
    eexists d1, _, d2, _. split; [exact Hrun1|]. split; [exact Hrun2|].
    split; [by rewrite Hperm|].
    intros i page Hi. eexists _, _.
    split; [by apply Hpages1|]. split; [by apply Hpages2|]. simpl.
    split; [done|]. apply Permutation_app_head. unfold pageDraws.
    by rewrite Hperm.
Qed.

Lemma fieldThrows_Some values pdfDoc field e :
  fieldThrows lib values (pageHeights pdfDoc) field = Some e
  ↔ ∃ page,
      arrayGet (getPages pdfDoc) (pageNumber (position field) - 1) = Some page
      ∧ imageBranch values field = false
      ∧ drawError lib
          (DrawText (default "" (values !! label field))
             (pos_x (position field))
             (jsSub lib (getHeight page) (pos_y (position field)))
             12 Helvetica (rgb (Q2Qc 0) (Q2Qc 0) (Q2Qc 0)))
        = Some e.
Proof.
  unfold fieldThrows, pageHeights. rewrite arrayGet_fmap.
  destruct (arrayGet (getPages pdfDoc) (pageNumber (position field) - 1))
    as [page|]; cbn [fmap option_fmap option_map].
  - destruct (imageBranch values field).
    + split; [done|]. by intros (p & _ & ? & _).
    + split; [intros Hd; by exists page|].
      by intros (p & [= <-] & _ & Hd).
  - split; [done|]. by intros (p & ? & _).
Qed.

(** X19. Up to the bytes handed to the browser, [downloadSignedPdf]
    throws in six cases only: the download answered with an error (that
    error is thrown, even if data came with it), it answered with no data
    ("Could not download the file"), the bytes could not be parsed as a
    document, the font could not be embedded, the loop over the fields
    threw, or the flattened document could not be saved. The loop throws
    the error of the first [drawText] that throws: that of a field on an
    existing page that is not a signature field with a value, after fields
    none of which made [drawText] throw. A signature field that has a
    value never makes it throw. *)
Theorem downloadSignedPdf_throws (response : DownloadResponse)
    (doc : SignedDocument) (e : Error) :
  (downloadSignedPdf lib response doc = Throw e
   ↔ dl_error response = Some e
     ∨ (dl_error response = None ∧ dl_data response = None
        ∧ e = "Could not download the file")
     ∨ (∃ pdfBytes,
          dl_error response = None ∧ dl_data response = Some pdfBytes
          ∧ (PDFDocument_load lib pdfBytes = Throw e
             ∨ ∃ pdfDoc,
                 PDFDocument_load lib pdfBytes = Ok pdfDoc
                 ∧ (embedFont lib pdfDoc = Throw e
                    ∨ ∃ font,
                        embedFont lib pdfDoc = Ok font
                        ∧ (overlayFields lib (form_values doc)
                             (fields (doc_template doc)) (pdfDoc, [])
                           = Throw e
                           ∨ ∃ flattened console,
                               overlayFields lib (form_values doc)
                                 (fields (doc_template doc)) (pdfDoc, [])
                               = Ok (flattened, console)
                               ∧ save lib flattened = Throw e)))))
  ∧ ∀ (l : list FormField) (pdfDoc : PDFDocument) (console : list ConsoleLine),
      overlayFields lib (form_values doc) l (pdfDoc, console) = Throw e
      ↔ ∃ pre field post page,
          l = pre ++ field :: post
          ∧ textDrawsSucceed lib (form_values doc) (pageHeights pdfDoc) pre
          ∧ arrayGet (getPages pdfDoc) (pageNumber (position field) - 1)
            = Some page
          ∧ imageBranch (form_values doc) field = false
          ∧ drawError lib
              (DrawText (default "" (form_values doc !! label field))
                 (pos_x (position field))
                 (jsSub lib (getHeight page) (pos_y (position field)))
                 12 Helvetica (rgb (Q2Qc 0) (Q2Qc 0) (Q2Qc 0)))
            = Some e.
Proof.
  split.
  - unfold downloadSignedPdf, loadSource, flattenLoaded. split.
    + destruct (dl_error response) as [downloadError|] eqn:He; simpl.
      { intros [= ->]. by left. }
      destruct (dl_data response) as [pdfBytes|] eqn:Hd; simpl.
      2:{ intros [= <-]. right; by left. }
      destruct (PDFDocument_load lib pdfBytes) as [pdfDoc|e1] eqn:Hl; simpl.
      2:{ intros [= ->]. right; right. exists pdfBytes.
          split; [done|]. split; [done|]. by left. }
      destruct (embedFont lib pdfDoc) as [font|e2] eqn:Hf; simpl.
      2:{ intros [= ->]. right; right. exists pdfBytes.
          split; [done|]. split; [done|]. right. exists pdfDoc.
          split; [done|]. by left. }
      destruct (overlayFields lib (form_values doc) (fields (doc_template doc))
                  (pdfDoc, [])) as [[d' c']|e3] eqn:Hr; simpl.
      2:{ intros [= ->]. right; right. exists pdfBytes.
          split; [done|]. split; [done|]. right. exists pdfDoc.
          split; [done|]. right. exists font. split; [done|]. by left. }
      destruct (save lib d') as [bytes|e4] eqn:Hs; simpl; [done|].
      intros [= ->]. right; right. exists pdfBytes.
      split; [done|]. split; [done|]. right. exists pdfDoc.
      split; [done|]. right. exists font. split; [done|]. right.
      by exists d', c'.
    + intros [He|[(He & Hd & ->)|(b & He & Hd & Hrest)]].
      * by rewrite He.
      * by rewrite He, Hd.
      * rewrite He, Hd. simpl.
        destruct Hrest
          as [Hl|(pdfDoc & Hl & [Hf|(font & Hf & [Hr|(fl & c & Hr & Hs)])])];
          rewrite Hl; simpl; [done|..].
        -- by rewrite Hf.
        -- rewrite Hf. simpl. by rewrite Hr.
        -- rewrite Hf. simpl. rewrite Hr. simpl. by rewrite Hs.
  - intros l pdfDoc console. rewrite overlayFields_throw. split.
    + intros (pre & field & post & Hl & Hpre & Hf).
      apply fieldThrows_Some in Hf as (page & Hpage & Hb & Hd).
      by exists pre, field, post, page.
    + intros (pre & field & post & page & Hl & Hpre & Hpage & Hb & Hd).
      exists pre, field, post. split; [done|]. split; [done|].
      apply fieldThrows_Some. by exists page.
Qed.

End PageProofs.

(** ** The further properties on the worked scenario *)

Section WalkthroughRuns.

Import Scenario Walkthrough.

Lemma validateForm_white_space_only_witness :
  template (session (<["Name" := "   "]> complete)) = Some agreement
  ∧ (validateForm (session (<["Name" := "   "]> complete))).1 ≠ true.
Proof.
  split; [reflexivity|].
  destruct (validateForm_white_space_only
              (session (<["Name" := "   "]> complete)) agreement eq_refl)
    as [Hiff _].
  intros Hok. destruct (proj1 Hiff Hok nameField) as (v & Hv & Hws).
  - left. reflexivity.
  - reflexivity.
  - injection Hv as <-. discriminate Hws.
Defined.

Lemma handleInputChange_clears_missing_witness :
  Js.trim "Jane Doe" ≠ ""
  ∧ List.map label
      (missingFields agreement
         (formValues (handleInputChange nameField "Jane Doe" (session ∅))))
    = ["Sig"].
Proof.
  assert (Hne : Js.trim "Jane Doe" ≠ "") by discriminate.
  split; [exact Hne|].
  rewrite (handleInputChange_clears_missing (session ∅) agreement nameField
             "Jane Doe" Hne).
  reflexivity.
Defined.

Lemma pad_and_qr_never_both_witness :
  showSignaturePad
    (ui (guardedRun insertRow selectSignedDocument selectTemplate
           storagePublicUrl desktop (world [] complete)
           [FieldClick sigField; QRCodeClick; DrawSignatureClick]))
  && showQRCode
       (ui (guardedRun insertRow selectSignedDocument selectTemplate
              storagePublicUrl desktop (world [] complete)
              [FieldClick sigField; QRCodeClick; DrawSignatureClick]))
  = false.
Proof.
  apply (pad_and_qr_never_both Store insertRow selectSignedDocument
           selectTemplate storagePublicUrl desktop (world [] complete)).
  reflexivity.
Defined.

Lemma draw_signature_flow_witness :
  formShown desktop (ui (world [] ∅)) = true
  ∧ formValues
      (ui (guardedRun insertRow selectSignedDocument selectTemplate
             storagePublicUrl desktop (world [] ∅)
             [FieldClick sigField; DrawSignatureClick; SignatureSave payload]))
      !! "Sig" = Some payload.
Proof.
  split; [reflexivity|].
  assert (Hlabel : label sigField ≠ "") by discriminate.
  destruct (draw_signature_flow Store insertRow selectSignedDocument
              selectTemplate storagePublicUrl desktop (world [] ∅) agreement
              sigField payload eq_refl eq_refl eq_refl
              (or_intror (or_introl eq_refl)) eq_refl Hlabel)
    as (_ & Hsig & _).
  exact Hsig.
Defined.

Lemma afternoon_staysNarrow : staysNarrow afternoon.
Proof.
  intros width Hin. simpl in Hin.
  destruct Hin as [H|[H|[H|[H|[H|[H|[]]]]]]]; try discriminate H.
  injection H as <-. lia.
Defined.

Lemma capture_view_never_submits_witness :
  isMobile (ui phone) = true
  ∧ store (run insertRow selectSignedDocument selectTemplate storagePublicUrl
             phoneRoute phone afternoon) = []
  ∧ mobileSignatureComplete
      (ui (run insertRow selectSignedDocument selectTemplate storagePublicUrl
             phoneRoute phone afternoon)) = false.
Proof.
  split; [reflexivity|].
  destruct (capture_view_never_submits Store insertRow selectSignedDocument
              selectTemplate storagePublicUrl phoneRoute phone afternoon
              eq_refl eq_refl afternoon_staysNarrow) as (_ & Hstore & Hdone).
  split; [exact Hstore|exact Hdone].
Defined.

Lemma capture_view_files_under_null_witness :
  activeField (ui phone) = None
  ∧ activeField
      (ui (guardedRun insertRow selectSignedDocument selectTemplate
             storagePublicUrl phoneRoute phone afternoon)) = None
  ∧ formValues
      (handleSignatureSave payload
         (ui (guardedRun insertRow selectSignedDocument selectTemplate
                storagePublicUrl phoneRoute phone afternoon))) !! "Sig"
    = formValues
        (ui (guardedRun insertRow selectSignedDocument selectTemplate
               storagePublicUrl phoneRoute phone afternoon)) !! "Sig".
Proof.
  split; [reflexivity|].
  assert (Hkey : "Sig" ≠ "null") by discriminate.
  destruct (capture_view_files_under_null Store insertRow selectSignedDocument
              selectTemplate storagePublicUrl phoneRoute phone afternoon payload
              eq_refl eq_refl eq_refl afternoon_staysNarrow)
    as (Hnone & _ & Hother).
  split; [exact Hnone|exact (Hother "Sig" Hkey)].
Defined.

Lemma handleSave_sends_one_insert_witness :
  (validateForm (ui (world [] complete))).1 = true
  ∧ isSaving (ui (handleSave refuse selectSignedDocument desktop
                    (world [] complete))) = false
  ∧ store (handleSave refuse selectSignedDocument desktop (world [] complete))
    = [].
Proof.
  split; [reflexivity|].
  destruct (handleSave_sends_one_insert Store refuse selectSignedDocument
              desktop (world [] complete) agreement eq_refl eq_refl eq_refl)
    as (_ & Hstore & Hsaving).
  split; [exact Hsaving|exact Hstore].
Defined.

Lemma handleSave_outcome_witness :
  ¬ saved (refuse [] (submittedRow desktop (ui (world [] complete)))).2
      (selectSignedDocument
         (refuse [] (submittedRow desktop (ui (world [] complete)))).1)
  ∧ error (ui (handleSave refuse selectSignedDocument desktop
                 (world [] complete)))
    = Some "Failed to save the document. Please try again.".
Proof.
  assert (Hnot : ¬ saved
            (refuse [] (submittedRow desktop (ui (world [] complete)))).2
            (selectSignedDocument
               (refuse [] (submittedRow desktop (ui (world [] complete)))).1)).
  { intros [Herr _]. discriminate Herr. }
  split; [exact Hnot|].
  destruct (handleSave_outcome Store refuse selectSignedDocument desktop
              (world [] complete) agreement eq_refl eq_refl eq_refl)
    as (_ & Hfail).
  destruct (Hfail Hnot) as (Herror & _). exact Herror.
Defined.

Lemma success_is_permanent_with_document_witness :
  success (ui (run insertRow selectSignedDocument selectTemplate
                 storagePublicUrl desktop (world [remote] blankName)
                 [InsertNotification notification;
                  InputChange nameField "Jane";
                  ActionClick; LoadTemplate])) = true
  ∧ is_Some
      (signedDocument
         (ui (run insertRow selectSignedDocument selectTemplate
                storagePublicUrl desktop (world [remote] blankName)
                [InsertNotification notification;
                 InputChange nameField "Jane";
                 ActionClick; LoadTemplate]))).
Proof.
  assert (Hstart : success (ui (world [remote] blankName)) = true →
                   is_Some (signedDocument (ui (world [remote] blankName))))
    by discriminate.
  destruct (success_is_permanent_with_document Store insertRow
              selectSignedDocument selectTemplate storagePublicUrl desktop
              (world [remote] blankName)
              [InsertNotification notification; InputChange nameField "Jane";
               ActionClick; LoadTemplate] Hstart) as [_ Hdoc].
  split; [reflexivity|]. apply Hdoc. reflexivity.
Defined.

Lemma onInsert_fetch_failure_witness :
  sel_data (selectSignedDocument (store (world [] blankName))
              (new_id notification)) = None
  ∧ ui (onInsert selectSignedDocument desktop notification (world [] blankName))
    = ui (world [] blankName).
Proof.
  split; [reflexivity|].
  destruct (onInsert_fetch_failure Store selectSignedDocument desktop
              notification "t1" (world [] blankName) eq_refl eq_refl
              (or_intror eq_refl)) as (Hui & _).
  exact Hui.
Defined.

Lemma onInsert_duplicate_delivery_witness :
  selectSignedDocument (store (world [remote] blankName)) (new_id notification)
    = found remote
  ∧ ui (onInsert selectSignedDocument desktop notification
          (onInsert selectSignedDocument desktop notification
             (world [remote] blankName)))
    = ui (onInsert selectSignedDocument desktop notification
            (world [remote] blankName)).
Proof.
  split; [reflexivity|].
  destruct (onInsert_duplicate_delivery Store selectSignedDocument desktop
              notification remote "t1" (world [remote] blankName)
              eq_refl eq_refl eq_refl) as (Hui & _).
  exact Hui.
Defined.

Lemma loadTemplate_outcomes_witness :
  is_Some (error (ui troubled))
  ∧ is_Some (error (ui (loadTemplate selectTemplate storagePublicUrl desktop
                          troubled)))
  ∧ template (ui (loadTemplate selectTemplate storagePublicUrl desktop
                    troubled)) = Some agreement.
Proof.
  assert (Herr : is_Some (error (ui troubled))) by (eexists; reflexivity).
  split; [exact Herr|].
  destruct (loadTemplate_outcomes Store selectTemplate storagePublicUrl desktop
              troubled) as (_ & Hkeeps & _ & Hread).
  split; [exact (Hkeeps Herr)|].
  destruct (Hread agreement eq_refl eq_refl) as (Htemplate & _).
  exact Htemplate.
Defined.

Lemma error_stays_until_submit_witness :
  noActionClick [InputChange nameField "Jane"; LoadTemplate;
                 InsertNotification notification]
  ∧ is_Some
      (error (ui (run insertRow selectSignedDocument selectTemplate
                    storagePublicUrl desktop troubled
                    [InputChange nameField "Jane"; LoadTemplate;
                     InsertNotification notification]))).
Proof.
  assert (Hno : noActionClick [InputChange nameField "Jane"; LoadTemplate;
                               InsertNotification notification]).
  { intros [H|[H|[H|[]]]]; discriminate H. }
  split; [exact Hno|].
  apply (error_stays_until_submit Store insertRow selectSignedDocument
           selectTemplate storagePublicUrl desktop troubled _ Hno).
  eexists; reflexivity.
Defined.

Lemma next_clicks_reach_submit_witness :
  formShown desktop (ui (world [] complete)) = true
  ∧ actionButton desktop
      (ui (run insertRow selectSignedDocument selectTemplate storagePublicUrl
             desktop (world [] complete) [ActionClick]))
    = Some (SubmitButton false).
Proof.
  split; [reflexivity|].
  assert (Hvals : ∀ (i : nat) f,
            (i < length (fields agreement) - 1)%nat →
            fields agreement !! i = Some f →
            Js.truthy (formValues (ui (world [] complete)) !! label f) = true).
  { intros [|i] f Hi Hf; [|simpl in Hi; lia].
    injection Hf as <-. reflexivity. }
  destruct (next_clicks_reach_submit Store insertRow selectSignedDocument
              selectTemplate storagePublicUrl desktop (world [] complete)
              agreement eq_refl eq_refl eq_refl Hvals)
    as (_ & _ & _ & _ & Hbutton).
  exact Hbutton.
Defined.

Lemma decodeSignature_between_commas_witness :
  commaFree "data:image/jpeg;base64" = true
  ∧ decodeSignature library "data:image/jpeg;base64,iVBORw0KGgo="
    = Ok {| img_width := 200; img_height := 81 |}.
Proof.
  split; [reflexivity|].
  destruct (decodeSignature_between_commas library
              "data:image/jpeg;base64" "iVBORw0KGgo=" eq_refl eq_refl)
    as (Hdecode & _).
  transitivity (binary ← atob "iVBORw0KGgo="; embedPng (charCodes binary));
    [exact Hdecode|reflexivity].
Defined.

Lemma flatten_reads_field_labels_witness :
  overlayFields library complete (fields agreement) (letter, [])
  = overlayFields library (<["null" := payload]> complete)
      (fields agreement) (letter, []).
Proof.
  apply (flatten_reads_field_labels library complete
           (<["null" := payload]> complete) (fields agreement) (letter, [])).
  intros field [<-|[<-|[]]]; reflexivity.
Defined.

Lemma flatten_field_order_witness :
  [nameField; sigField] ≡ₚ [sigField; nameField]
  ∧ ∃ d1 c1 d2 c2,
      overlayFields library complete [nameField; sigField] (letter, [])
        = Ok (d1, c1)
      ∧ overlayFields library complete [sigField; nameField] (letter, [])
        = Ok (d2, c2)
      ∧ ∃ p1 p2, getPages d1 !! 0%nat = Some p1
                 ∧ getPages d2 !! 0%nat = Some p2
                 ∧ content p1 ≡ₚ content p2.
Proof.
  assert (Hperm : [nameField; sigField] ≡ₚ [sigField; nameField])
    by apply perm_swap.
  split; [exact Hperm|].
  assert (Hok : textDrawsSucceed library complete (pageHeights letter)
                  [nameField; sigField]).
  { intros f [<-|[<-|[]]]; reflexivity. }
  destruct (flatten_field_order library complete _ _ letter [] Hperm)
    as (_ & Hruns).
  destruct (Hruns Hok) as (d1 & c1 & d2 & c2 & H1 & H2 & _ & Hpages).
  exists d1, c1, d2, c2. split; [exact H1|]. split; [exact H2|].
  destruct (Hpages 0%nat {| getHeight := Q2Qc 792; content := [] |} eq_refl)
    as (p1 & p2 & Hp1 & Hp2 & _ & Hcontent).
  exists p1, p2. split; [exact Hp1|]. split; [exact Hp2|exact Hcontent].
Defined.

End WalkthroughRuns.

(** ** The console of a flattening run, and the index of the current field *)

Section ConsoleProofs.

Variable lib : Library.

(** X20. The console of a flattening run. When no [drawText] throws, the
    lines written are, in the order of the template, one line for each
    signature field on an existing page whose value is not empty and
    either does not decode or decodes to a picture that [drawImage]
    refuses, and no other line; the line is "Error embedding signature:"
    with the error thrown. *)
Theorem flatten_console (values : FormValues) (l : list FormField)
    (pdfDoc : PDFDocument) (console : list ConsoleLine) :
  textDrawsSucceed lib values (pageHeights pdfDoc) l →
  (∃ pdfDoc',
     overlayFields lib values l (pdfDoc, console)
     = Ok (pdfDoc',
           console ++ omap (fieldLine lib values (pageHeights pdfDoc)) l))
  ∧ ∀ (field : FormField) (line : ConsoleLine),
      fieldLine lib values (pageHeights pdfDoc) field = Some line
      ↔ ∃ page e,
          arrayGet (getPages pdfDoc) (pageNumber (position field) - 1)
          = Some page
          ∧ field_type field = signature
          ∧ Js.truthy (values !! label field) = true
          ∧ line = {| line_text := "Error embedding signature:";
                      line_error := e |}
          ∧ (decodeSignature lib (default "" (values !! label field))
             = Throw e
             ∨ ∃ image,
                 decodeSignature lib (default "" (values !! label field))
                 = Ok image
                 ∧ drawError lib (imageDraw lib (getHeight page) field image)
                   = Some e).
Proof.
  intros Hok. split.
  - destruct (overlayFields_succeed lib values l pdfDoc console Hok)
      as (d & Hrun & _). by exists d.
  - intros field line. unfold fieldLine, pageHeights. rewrite arrayGet_fmap.
    destruct (arrayGet (getPages pdfDoc) (pageNumber (position field) - 1))
      as [page|]; cbn [fmap option_fmap option_map].
    2:{ split; [done|]. by intros (p & e & ? & _). }
    unfold imageBranch.
    destruct (bool_decide (field_type field = signature)) eqn:Hty;
      cbn [andb].
    2:{ apply bool_decide_eq_false in Hty. split; [done|].
        by intros (p & e & _ & ? & _). }
    apply bool_decide_eq_true in Hty.
    destruct (Js.truthy (values !! label field)).
    2:{ split; [done|]. by intros (p & e & _ & _ & ? & _). }
    destruct (decodeSignature lib (default "" (values !! label field)))
      as [image|e0].
    + destruct (drawError lib (imageDraw lib (getHeight page) field image))
        as [e0|] eqn:Hdraw; cbn [option_map].
      * split.
        -- intros [= <-]. exists page, e0. split_and!; try done.
           right. by exists image.
        -- intros (p & e & [= <-] & _ & _ & -> & [?|(im & [= <-] & Hd)]);
             [done|]. assert (e = e0) as -> by congruence. done.
      * split; [done|].
        intros (p & e & [= <-] & _ & _ & -> & [?|(im & [= <-] & Hd)]);
          [done|]. congruence.
    + split.
      * intros [= <-]. exists page, e0. split_and!; try done. by left.
      * intros (p & e & [= <-] & _ & _ & -> & [[= <-]|(im & ? & _)]); done.
Qed.

End ConsoleProofs.

Section ConsoleRuns.

Import Scenario.

Lemma flatten_console_witness :
  textDrawsSucceed library badSignature (pageHeights letter) (fields agreement)
  ∧ ∃ pdfDoc',
      overlayFields library badSignature (fields agreement) (letter, [])
      = Ok (pdfDoc',
            [{| line_text := "Error embedding signature:";
                line_error := "InvalidCharacterError" |}]).
Proof.
  assert (Hok : textDrawsSucceed library badSignature (pageHeights letter)
                  (fields agreement)).
  { intros f [<-|[<-|[]]]; reflexivity. }
  split; [exact Hok|].
  destruct (flatten_console library badSignature (fields agreement) letter []
              Hok) as ((d & Hrun) & _).
  exists d. exact Hrun.
Defined.

End ConsoleRuns.

Section BoundsProofs.

Variable Store : Type.
Variable insertRow : Store → InsertRow → Store * InsertResponse.
Variable selectSignedDocument : Store → string → SelectResponse.
Variable selectTemplate : Store → option string → TemplateResponse.
Variable storagePublicUrl : Store → string → UrlResponse.
Variable route : Route.

Lemma handleNextField_bounds (s : State) :
  indexInBounds s → indexInBounds (handleNextField s).
Proof.
  unfold indexInBounds, handleNextField.
  destruct (template s) as [T|] eqn:HT; [|by rewrite ?HT].
  intros [Hlo Hhi]. case_bool_decide as Hlt; [|by rewrite ?HT].
  repeat case_match; simpl in *; simplify_eq; split; try lia; right; lia.
Qed.

Lemma step_bounds (w : World Store) (e : Event) :
  e ≠ LoadTemplate →
  indexInBounds (ui w) →
  indexInBounds (ui (step insertRow selectSignedDocument selectTemplate
                       storagePublicUrl route w e)).
Proof.
  intros Hne Hin. destruct e; simpl; try done.
  - unfold handleFieldClick. repeat case_match; done.
  - unfold clickActionButton.
    destruct (actionButton route (ui w)) as [[[]|[]]|]; try done.
    + simpl. by apply handleNextField_bounds.
    + unfold indexInBounds in *.
      destruct (handleSave_keeps Store insertRow selectSignedDocument route w)
        as (_ & -> & _ & ->). done.
  - unfold indexInBounds in *.
    destruct (onInsert_frame Store selectSignedDocument route payload w)
      as (_ & _ & _ & _ & _ & _ & -> & -> & _). done.
Qed.

(** X21. The current index never leaves the field list: as long as the
    template is not reloaded, after any sequence of events the index is
    not negative and is a position of the template's field list (0 for an
    empty list), so the field that the "Next Field" button reads is always
    there. *)
Theorem index_stays_in_bounds (w : World Store) (events : list Event) :
  noReload events →
  indexInBounds (ui w) →
  let w' := run insertRow selectSignedDocument selectTemplate
              storagePublicUrl route w events in
  indexInBounds (ui w')
  ∧ ∀ T, template (ui w') = Some T →
         (currentFieldIndex (ui w') < Z.of_nat (length (fields T)) - 1)%Z →
         is_Some (arrayGet (fields T) (currentFieldIndex (ui w'))).
Proof.
  intros Hno Hin w'.
  assert (Hinv : indexInBounds (ui w')).
  { subst w'. unfold run, noReload in *. revert w Hin.
    induction events as [|e events IH]; intros w Hin; simpl; [done|].
    apply IH.
    - intros Hr. apply Hno. by right.
    - apply step_bounds; [|done]. intros ->. apply Hno. by left. }
  split; [done|]. intros T HT Hlt.
  unfold indexInBounds in Hinv. rewrite HT in Hinv. destruct Hinv as [Hlo _].
  unfold arrayGet. rewrite bool_decide_true by done.
  apply lookup_lt_is_Some. lia.
Qed.

End BoundsProofs.

Section BoundsRuns.

Import Scenario Walkthrough.

Lemma index_stays_in_bounds_witness :
  noReload [ActionClick; ActionClick; InputChange nameField ""; ActionClick]
  ∧ indexInBounds
      (ui (run insertRow selectSignedDocument selectTemplate storagePublicUrl
             desktop (world [] complete)
             [ActionClick; ActionClick; InputChange nameField ""; ActionClick])).
Proof.
  assert (Hno : noReload [ActionClick; ActionClick; InputChange nameField "";
                          ActionClick]).
  { intros [H|[H|[H|[H|[]]]]]; discriminate H. }
  split; [exact Hno|].
  assert (Hstart : indexInBounds (ui (world [] complete))).
  { split; [reflexivity|]. left. reflexivity. }
  destruct (index_stays_in_bounds Store insertRow selectSignedDocument
              selectTemplate storagePublicUrl desktop (world [] complete)
              _ Hno Hstart) as [Hin _].
  exact Hin.
Defined.

End BoundsRuns.
